(** * flashxroute: the wire codec, the decoders, the transport and the
    block selector, embedded from the Go sources.

    - [helpers.go]      : ParseInt, ParseBigInt, IntToHex, BigToHex, TxToRlp
    - [flashxroute.go]  : Call, CallWithBloxrouteAuthHeader, RawCall,
                          EthSyncing, BloxrouteSimulateBlock
    - options and types : WithHttpClient, Syncing, Block, Transaction,
                          proxyBlockWithoutTransactions.toBlock,
                          RelayErrorResponse

    Go values are modelled as follows.  A Go [string] or [[]byte] is a
    [string] (a sequence of bytes).  An [int] is a [Z] in the 64-bit signed
    range, a [uint64] a [Z] below 2^64, with the wrap-around written out.  A
    [big.Int] is a [Z].  A call that can panic returns a [run]; a Go pair
    [(value, error)] is a pair whose second component is an [option error]. *)

From Stdlib Require Import ZArith Ascii String Lia Bool.
From stdpp Require Import base option list strings gmap.

Local Open Scope Z_scope.

(** ** Go runtime *)

Module Go.

(** The outcome of running a function body: it returns, or it panics. *)
Inductive run (A : Type) : Type :=
| Done (a : A)
| Panic (msg : string).
Arguments Done {A} a.
Arguments Panic {A} msg.

Definition bind {A B} (m : run A) (k : A -> run B) : run B :=
  match m with
  | Done a => k a
  | Panic msg => Panic msg
  end.

Definition wrap64 (z : Z) : Z := z mod 2 ^ 64.
Definition int64 (z : Z) : Z := (z + 2 ^ 63) mod 2 ^ 64 - 2 ^ 63.
Definition is_int (z : Z) : Prop := - 2 ^ 63 <= z < 2 ^ 63.

Definition byteval (c : ascii) : Z := Z.of_N (N_of_ascii c).
Definition byte_of (z : Z) : ascii := ascii_of_N (Z.to_N z).

Definition between (lo hi : ascii) (c : ascii) : bool :=
  (byteval lo <=? byteval c) && (byteval c <=? byteval hi).

(** [s[n:]]: the slice panics when [n] exceeds the length. *)
Fixpoint slice_from (n : nat) (s : string) : run string :=
  match n with
  | O => Done s
  | S n' =>
      match s with
      | EmptyString => Panic "slice bounds out of range"
      | String _ s' => slice_from n' s'
      end
  end.

(** [s[:n]] *)
Fixpoint slice_to (n : nat) (s : string) : run string :=
  match n with
  | O => Done EmptyString
  | S n' =>
      match s with
      | EmptyString => Panic "slice bounds out of range"
      | String c s' =>
          match slice_to n' s' with
          | Done r => Done (String c r)
          | Panic m => Panic m
          end
      end
  end.

End Go.
Import Go.

(** ** package strings *)

Module strings.

Fixpoint strip (prefix s : string) : option string :=
  match prefix with
  | EmptyString => Some s
  | String p prefix' =>
      match s with
      | EmptyString => None
      | String c s' => if Ascii.eqb p c then strip prefix' s' else None
      end
  end.

Definition HasPrefix (s prefix : string) : bool :=
  match strip prefix s with Some _ => true | None => false end.

Definition TrimPrefix (s prefix : string) : string :=
  match strip prefix s with Some r => r | None => s end.

End strings.

(** ** package strconv: ParseUint and ParseInt at base 16, bitSize 64 *)

Module strconv.

Inductive NumErr := ErrSyntax | ErrRange.

Definition maxUint64 : Z := 2 ^ 64 - 1.

Definition lower (c : ascii) : ascii := byte_of (Z.lor (byteval c) 32).

(** The digit a byte stands for, before the comparison with the base. *)
Definition digit (c : ascii) : option Z :=
  if between "0" "9" c then Some (byteval c - byteval "0")
  else if between "a" "z" (lower c) then Some (byteval (lower c) - byteval "a" + 10)
  else None.

Definition base : Z := 16.
Definition cutoff : Z := maxUint64 / 16 + 1.
Definition maxVal : Z := wrap64 (Z.shiftl 1 64 - 1).

Fixpoint ParseUint_loop (s : string) (n : Z) : Z * option NumErr :=
  match s with
  | EmptyString => (n, None)
  | String c rest =>
      match digit c with
      | None => (0, Some ErrSyntax)
      | Some d =>
          if base <=? d then (0, Some ErrSyntax)
          else if cutoff <=? n then (maxVal, Some ErrRange)
          else
            let n' := wrap64 (n * base) in
            let n1 := wrap64 (n' + d) in
            if (n1 <? n') || (maxVal <? n1) then (maxVal, Some ErrRange)
            else ParseUint_loop rest n1
      end
  end.

Definition ParseUint (s : string) : Z * option NumErr :=
  match s with
  | EmptyString => (0, Some ErrSyntax)
  | _ => ParseUint_loop s 0
  end.

Definition ParseInt (s : string) : Z * option NumErr :=
  match s with
  | EmptyString => (0, Some ErrSyntax)
  | String c0 s' =>
      let '(neg, s1) :=
        if Ascii.eqb c0 "+" then (false, s')
        else if Ascii.eqb c0 "-" then (true, s')
        else (false, s) in
      let '(un, err) := ParseUint s1 in
      match err with
      | Some ErrSyntax => (0, Some ErrSyntax)
      | _ =>
          let cutoff := Z.shiftl 1 63 in
          if negb neg && (cutoff <=? un) then (cutoff - 1, Some ErrRange)
          else if neg && (cutoff <? un) then (- cutoff, Some ErrRange)
          else
            let n := int64 un in
            (if neg then int64 (- n) else n, None)
      end
  end.

End strconv.

(** ** package fmt: the verbs the helpers use *)

Module fmt.

Definition ldigits : string := "0123456789abcdefx".

Definition digits (d : Z) : ascii :=
  match String.get (Z.to_nat d) ldigits with
  | Some c => c
  | None => "?"%char
  end.

(** [fmtInteger] at base 16: the digits are written from the right while
    [u >= 16].  A [uint64] leaves the loop within 15 rounds. *)
Fixpoint fmtInteger16 (rounds : nat) (u : Z) (buf : string) : string :=
  match rounds with
  | O => String (digits u) buf
  | S r =>
      if 16 <=? u
      then fmtInteger16 r (Z.shiftr u 4) (String (digits (Z.land u 15)) buf)
      else String (digits u) buf
  end.

(** [Sprintf("%x", i)] for an [int]. *)
Definition x_int (i : Z) : string :=
  let negative := i <? 0 in
  let u := if negative then wrap64 (- i) else wrap64 i in
  let body := fmtInteger16 15 u EmptyString in
  if negative then String "-" body else body.

(** [Sprintf("%x", b)] for a byte slice: two digits for each byte. *)
Fixpoint x_bytes (b : list Z) : string :=
  match b with
  | [] => EmptyString
  | c :: b' => String (digits (Z.shiftr c 4)) (String (digits (Z.land c 15)) (x_bytes b'))
  end.

End fmt.

(** ** package unicode/utf8: the width of the first rune of a string *)

Module utf8.

(** The range accepted for the second byte after first byte [b0]. *)
Definition accept (b0 : Z) : Z * Z :=
  if b0 =? 224 then (160, 191)
  else if b0 =? 237 then (128, 159)
  else if b0 =? 240 then (144, 191)
  else if b0 =? 244 then (128, 143)
  else (128, 191).

Definition payload (c : ascii) : Z := Z.land (byteval c) 63.

(** [DecodeRune]: the rune and its width; an invalid or truncated encoding
    is [RuneError] of width 1. *)
Definition RuneError : Z := 65533.

Definition DecodeRune (s : string) : Z * nat :=
  match s with
  | EmptyString => (RuneError, 0%nat)
  | String c0 r0 =>
      let b0 := byteval c0 in
      if b0 <? 128 then (b0, 1%nat)
      else
        let '(lo, hi) := accept b0 in
        match r0 with
        | EmptyString => (RuneError, 1%nat)
        | String c1 r1 =>
            if negb ((lo <=? byteval c1) && (byteval c1 <=? hi)) then (RuneError, 1%nat)
            else if (194 <=? b0) && (b0 <=? 223)
            then (Z.lor (Z.shiftl (Z.land b0 31) 6) (payload c1), 2%nat)
            else
              match r1 with
              | EmptyString => (RuneError, 1%nat)
              | String c2 r2 =>
                  if negb ((128 <=? byteval c2) && (byteval c2 <=? 191)) then (RuneError, 1%nat)
                  else if (224 <=? b0) && (b0 <=? 239)
                  then (Z.lor (Z.shiftl (Z.land b0 15) 12)
                          (Z.lor (Z.shiftl (payload c1) 6) (payload c2)), 3%nat)
                  else
                    match r2 with
                    | EmptyString => (RuneError, 1%nat)
                    | String c3 _ =>
                        if negb ((128 <=? byteval c3) && (byteval c3 <=? 191)) then (RuneError, 1%nat)
                        else if (240 <=? b0) && (b0 <=? 244)
                        then (Z.lor (Z.shiftl (Z.land b0 7) 18)
                                (Z.lor (Z.shiftl (payload c1) 12)
                                   (Z.lor (Z.shiftl (payload c2) 6) (payload c3))), 4%nat)
                        else (RuneError, 1%nat)
                    end
              end
        end
  end.

End utf8.

(** ** package math/big behind fmt.Sscan: Int.Scan with the verb [v] *)

Module big.

Inductive ScanErr :=
| ErrEOF              (* io.EOF, reported by Sscan as io.ErrUnexpectedEOF *)
| ErrInvalidRune      (* byteReader: a rune wider than one byte *)
| ErrNoDigits         (* number has no digits *)
| ErrSeparator.       (* '_' must separate successive digits *)

(** [byteReader.ReadByte] on the text that is left. *)
Inductive read := REOF | RByte (ch : ascii) | RErr.

Definition ReadByte (s : string) : read :=
  match s with
  | EmptyString => REOF
  | String c _ =>
      if byteval c <? 128 then RByte c
      else
        match utf8.DecodeRune s with
        | (r, 1%nat) => RByte (byte_of (r mod 256))
        | _ => RErr
        end
  end.

(** [fmt.isSpace] *)
Definition isSpace (r : Z) : bool :=
  ((9 <=? r) && (r <=? 13)) || (r =? 32) || (r =? 133) || (r =? 160)
  || (r =? 5760) || ((8192 <=? r) && (r <=? 8202))
  || (r =? 8232) || (r =? 8233) || (r =? 8239) || (r =? 8287) || (r =? 12288).

(** [ss.SkipSpace] when newlines count as space; [pending] bytes of the
    rune being skipped are still to be dropped. *)
Fixpoint SkipSpace (pending : nat) (s : string) : string :=
  match s with
  | EmptyString => EmptyString
  | String _ rest =>
      match pending with
      | S p => SkipSpace p rest
      | O =>
          let '(r, size) := utf8.DecodeRune s in
          if isSpace r then SkipSpace (size - 1) rest else s
      end
  end.

Inductive prevChar := PrevSep | PrevDigit | PrevOther.

Definition MaxBase : Z := 62.

Definition digitValue (ch : ascii) : Z :=
  if between "0" "9" ch then byteval ch - byteval "0"
  else if between "a" "z" ch then byteval ch - byteval "a" + 10
  else if between "A" "Z" ch then byteval ch - byteval "A" + 10
  else MaxBase + 1.

Record scanned := Scanned {
  sc_prev : prevChar;
  sc_invalSep : bool;
  sc_count : Z;
  sc_z : Z;
  sc_err : option ScanErr
}.

(** The digit loop of [nat.scan] for [base == 0] and [fracOk == false];
    the digits are summed one by one where the source gathers them into
    machine words first. *)
Fixpoint scan_loop (b : Z) (s : string) (prev : prevChar) (invalSep : bool)
    (count z : Z) : scanned :=
  match s with
  | EmptyString => Scanned prev invalSep count z None
  | String _ rest =>
      match ReadByte s with
      | REOF => Scanned prev invalSep count z None
      | RErr => Scanned prev invalSep count z (Some ErrInvalidRune)
      | RByte ch =>
          if Ascii.eqb ch "_"
          then
            scan_loop b rest PrevSep
              (match prev with PrevDigit => invalSep | _ => true end) count z
          else
            let d1 := digitValue ch in
            if b <=? d1 then Scanned prev invalSep count z None
            else scan_loop b rest PrevDigit invalSep (count + 1) (z * b + d1)
      end
  end.

Definition finish (octal0 : bool) (r : scanned) : Z * option ScanErr :=
  let err :=
    match sc_err r with
    | Some e => Some e
    | None =>
        if sc_invalSep r || match sc_prev r with PrevSep => true | _ => false end
        then Some ErrSeparator else None
    end in
  if sc_count r =? 0
  then if octal0 then (0, err) else (sc_z r, Some ErrNoDigits)
  else (sc_z r, err).

Definition is_one_of (a b : ascii) (ch : ascii) : bool :=
  Ascii.eqb ch a || Ascii.eqb ch b.

(** [nat.scan(r, 0, false)] *)
Definition nat_scan (s : string) : Z * option ScanErr :=
  match s with
  | EmptyString => finish false (Scanned PrevOther false 0 0 None)
  | String _ rest1 =>
      match ReadByte s with
      | REOF => finish false (Scanned PrevOther false 0 0 None)
      | RErr => finish false (Scanned PrevOther false 0 0 (Some ErrInvalidRune))
      | RByte ch =>
          if Ascii.eqb ch "0"
          then
            match rest1 with
            | EmptyString => finish false (Scanned PrevDigit false 1 0 None)
            | String _ rest2 =>
                match ReadByte rest1 with
                | REOF => finish false (Scanned PrevDigit false 1 0 None)
                | RErr => finish false (Scanned PrevDigit false 1 0 (Some ErrInvalidRune))
                | RByte ch2 =>
                    if is_one_of "b" "B" ch2
                    then finish false (scan_loop 2 rest2 PrevDigit false 0 0)
                    else if is_one_of "o" "O" ch2
                    then finish false (scan_loop 8 rest2 PrevDigit false 0 0)
                    else if is_one_of "x" "X" ch2
                    then finish false (scan_loop 16 rest2 PrevDigit false 0 0)
                    else finish true (scan_loop 8 rest1 PrevDigit false 0 0)
                end
            end
          else finish false (scan_loop 10 s PrevOther false 0 0)
      end
  end.

(** [Int.scan(r, 0)] on a fresh [Int]: sign, then magnitude. *)
Definition Int_scan (s : string) : Z * option ScanErr :=
  match s with
  | EmptyString => (0, Some ErrEOF)
  | String _ rest =>
      match ReadByte s with
      | REOF => (0, Some ErrEOF)
      | RErr => (0, Some ErrInvalidRune)
      | RByte ch =>
          let '(neg, s1) :=
            if Ascii.eqb ch "-" then (true, rest)
            else if Ascii.eqb ch "+" then (false, rest)
            else (false, s) in
          match nat_scan s1 with
          | (abs, Some e) => (abs, Some e)
          | (abs, None) => (if neg then - abs else abs, None)
          end
      end
  end.

(** [Int.Scan(s, 'v')] *)
Definition Int_Scan (s : string) : Z * option ScanErr :=
  Int_scan (SkipSpace 0 s).

Definition BitLen (x : Z) : Z :=
  let a := Z.abs x in if a =? 0 then 0 else Z.log2 a + 1.

(** [Int.Bytes]: the magnitude in big-endian bytes without leading zeros. *)
Fixpoint Bytes_loop (rounds : nat) (u : Z) (buf : list Z) : list Z :=
  match rounds with
  | O => buf
  | S r =>
      if u =? 0 then buf
      else Bytes_loop r (Z.shiftr u 8) (Z.land u 255 :: buf)
  end.

Definition Bytes (x : Z) : list Z :=
  Bytes_loop (Z.to_nat (BitLen x)) (Z.abs x) [].

End big.

(** ** Errors *)

Inductive sentinel := ErrRelayErrorResponse.

Definition sentinel_text (e : sentinel) : string :=
  match e with ErrRelayErrorResponse => "relay error response" end.

(** RpcError - ethereum error *)
Record RpcError := mkRpcError { Code : Z; Message : string }.

Inductive error :=
| NumError (e : strconv.NumErr)          (* *strconv.NumError *)
| ScanError (e : big.ScanErr)            (* fmt.Sscan *)
| SyntaxError                            (* *json.SyntaxError *)
| UnmarshalTypeError                     (* *json.UnmarshalTypeError *)
| MarshalError                           (* json.Marshal *)
| UrlError                               (* http.NewRequest *)
| TransportError (msg : string)          (* httpClient.Do, ioutil.ReadAll *)
| ErrRpc (e : RpcError)                  (* an RpcError returned as error *)
| WrapError (w : sentinel) (text : string).  (* fmt.Errorf with the verb w *)

(** [fmt.Errorf("%w: %s", w, s)] *)
Definition Errorf_w_s (w : sentinel) (s : string) : error :=
  WrapError w (sentinel_text w +:+ ": " +:+ s).

(** ** helpers.go *)

(** ParseInt parse hex string value to int *)
Definition ParseInt (value : string) : Z * option error :=
  let '(i, err) := strconv.ParseInt (strings.TrimPrefix value "0x") in
  match err with
  | Some e => (0, Some (NumError e))
  | None => (int64 i, None)
  end.

(** ParseBigInt parse hex string value to big.Int *)
Definition ParseBigInt (value : string) : Z * option error :=
  match big.Int_Scan value with
  | (i, Some e) => (i, Some (ScanError e))
  | (i, None) => (i, None)
  end.

(** IntToHex convert int to hexadecimal representation *)
Definition IntToHex (i : Z) : string := "0x" +:+ fmt.x_int i.

(** BigToHex covert big.Int to hexadecimal representation *)
Definition BigToHex (bigInt : Z) : string :=
  if big.BitLen bigInt =? 0 then "0x0"
  else "0x" +:+ strings.TrimPrefix (fmt.x_bytes (big.Bytes bigInt)) "0".

(** ** package encoding/json

    A JSON text is handled as the value it denotes: members of an object in
    wire order, duplicates kept; a string as its unquoted bytes; a number as
    an integer literal or as a literal with a fraction or an exponent.  A
    byte slice that holds one JSON text is [Some v]; a byte slice that holds
    none (empty, or not valid JSON) is [None]. *)

Module json.

#[local] Set Warnings "-register-all".

Inductive number :=
| Integer (z : Z)
| Fractional (literal : string).

Inductive value :=
| JNull
| JBool (b : bool)
| JNumber (n : number)
| JString (s : string)
| JArray (elements : list value)
| JObject (members : list (string * value)).

Definition text := option value.

(** [json.RawMessage]: the bytes of one value, or the nil slice. *)
Definition RawMessage := text.

(** [foldName]: the key under Unicode simple case folding.  Letters of
    ASCII go to upper case; the two runes outside ASCII whose fold orbit
    meets ASCII (U+017F to S, U+212A to K) are mapped there; every other
    byte is kept, which leaves it outside ASCII as the source does. *)
Fixpoint foldName (s : string) : string :=
  match s with
  | EmptyString => EmptyString
  | String c r =>
      if between "a" "z" c then String (byte_of (byteval c - 32)) (foldName r)
      else
        match r with
        | String c1 r1 =>
            if (byteval c =? 197) && (byteval c1 =? 191) then String "S" (foldName r1)
            else
              match r1 with
              | String c2 r2 =>
                  if (byteval c =? 226) && (byteval c1 =? 132) && (byteval c2 =? 170)
                  then String "K" (foldName r2)
                  else String c (foldName r)
              | EmptyString => String c (foldName r)
              end
        | EmptyString => String c (foldName r)
        end
  end.

(** The field a key selects: the exact name first, the folded name next. *)
Definition findField (names : list string) (key : string) : option string :=
  match List.find (String.eqb key) names with
  | Some n => Some n
  | None => List.find (fun n => String.eqb (foldName n) (foldName key)) names
  end.

(** [d.saveError]: the first error is the one reported. *)
Definition saveError (saved new : option error) : option error :=
  match saved with Some e => Some e | None => new end.

(** Storing a value into a field of type [string]. *)
Definition storeString (cur : string) (v : value) : string * option error :=
  match v with
  | JNull => (cur, None)
  | JString s => (s, None)
  | _ => (cur, Some UnmarshalTypeError)
  end.

(** Storing a value into a field of type [int]. *)
Definition storeInt (cur : Z) (v : value) : Z * option error :=
  match v with
  | JNull => (cur, None)
  | JNumber (Integer z) =>
      if (- 2 ^ 63 <=? z) && (z <? 2 ^ 63) then (z, None)
      else (cur, Some UnmarshalTypeError)
  | _ => (cur, Some UnmarshalTypeError)
  end.

(** Decoding into a struct: [null] leaves it alone, an object is read
    member by member, anything else is a type error. *)
Definition decodeStruct {T} (member : T * option error -> string * value -> T * option error)
    (cur : T) (v : value) : T * option error :=
  match v with
  | JNull => (cur, None)
  | JObject members => fold_left member members (cur, None)
  | _ => (cur, Some UnmarshalTypeError)
  end.

(** [json.Unmarshal(data, &target)] for a struct target. *)
Definition Unmarshal {T} (decode : T -> value -> T * option error)
    (data : text) (target : T) : T * option error :=
  match data with
  | None => (target, Some SyntaxError)
  | Some v => decode target v
  end.

End json.
Import json.

(** ** Wire records *)

Record rpcResponse := mkRpcResponse {
  resp_ID : Z;
  resp_JSONRPC : string;
  resp_Result : RawMessage;
  resp_Error : option RpcError
}.

(** A parameter of type [interface{}], seen through [json.Marshal]: the
    value it is written as, or [None] for a value Marshal rejects. *)
Definition any := option value.

Record rpcRequest := mkRpcRequest {
  req_ID : Z;
  req_JSONRPC : string;
  req_Method : string;
  req_Params : any
}.

Record RelayErrorResponse := mkRelayErrorResponse { Error : string }.

Definition RpcError_member (st : RpcError * option error) (m : string * value)
  : RpcError * option error :=
  let '(e, saved) := st in
  match findField ["code"; "message"] (fst m) with
  | Some f =>
      if String.eqb f "code"
      then let '(c, err) := storeInt (Code e) (snd m) in
           (mkRpcError c (Message e), saveError saved err)
      else let '(t, err) := storeString (Message e) (snd m) in
           (mkRpcError (Code e) t, saveError saved err)
  | None => st
  end.

(** Storing a value into the field [Error *RpcError]: [null] resets the
    pointer, any other value allocates the struct when the pointer is nil. *)
Definition storeRpcError (cur : option RpcError) (v : value)
  : option RpcError * option error :=
  match v with
  | JNull => (None, None)
  | _ =>
      let '(e, err) := decodeStruct RpcError_member (default (mkRpcError 0 EmptyString) cur) v in
      (Some e, err)
  end.

Definition rpcResponse_member (st : rpcResponse * option error) (m : string * value)
  : rpcResponse * option error :=
  let '(r, saved) := st in
  match findField ["id"; "jsonrpc"; "result"; "error"] (fst m) with
  | Some f =>
      if String.eqb f "id"
      then let '(x, err) := storeInt (resp_ID r) (snd m) in
           (mkRpcResponse x (resp_JSONRPC r) (resp_Result r) (resp_Error r), saveError saved err)
      else if String.eqb f "jsonrpc"
      then let '(x, err) := storeString (resp_JSONRPC r) (snd m) in
           (mkRpcResponse (resp_ID r) x (resp_Result r) (resp_Error r), saveError saved err)
      else if String.eqb f "result"
      then (mkRpcResponse (resp_ID r) (resp_JSONRPC r) (Some (snd m)) (resp_Error r), saved)
      else let '(x, err) := storeRpcError (resp_Error r) (snd m) in
           (mkRpcResponse (resp_ID r) (resp_JSONRPC r) (resp_Result r) x, saveError saved err)
  | None => st
  end.

Definition RelayErrorResponse_member (st : RelayErrorResponse * option error)
    (m : string * value) : RelayErrorResponse * option error :=
  let '(r, saved) := st in
  match findField ["error"] (fst m) with
  | Some _ =>
      let '(x, err) := storeString (Error r) (snd m) in
      (mkRelayErrorResponse x, saveError saved err)
  | None => st
  end.

(** [json.Unmarshal(data, resp)] with [resp := new(rpcResponse)] *)
Definition Unmarshal_rpcResponse (data : text) : rpcResponse * option error :=
  Unmarshal (decodeStruct rpcResponse_member) data (mkRpcResponse 0 EmptyString None None).

(** [json.Unmarshal(data, errorResp)] with [errorResp := new(RelayErrorResponse)] *)
Definition Unmarshal_RelayErrorResponse (data : text) : RelayErrorResponse * option error :=
  Unmarshal (decodeStruct RelayErrorResponse_member) data (mkRelayErrorResponse EmptyString).

(** [json.Unmarshal(data, &s)] for a [string] target *)
Definition Unmarshal_string (data : text) (target : string) : string * option error :=
  Unmarshal storeString data target.

(** [json.Marshal(request)]: the fields in declaration order. *)
Definition Marshal_rpcRequest (request : rpcRequest) : value * option error :=
  match req_Params request with
  | None => (JNull, Some MarshalError)
  | Some p =>
      (JObject [("id", JNumber (Integer (req_ID request)));
                ("jsonrpc", JString (req_JSONRPC request));
                ("method", JString (req_Method request));
                ("params", p)], None)
  end.

(** ** The world outside: net/http and the injected collaborators *)

(** An [*http.Request] as [http.NewRequest] and [Header.Add] leave it. *)
Record Request := mkRequest {
  http_method : string;
  http_url : string;
  http_header : list (string * string);
  http_body : value
}.

(** What [httpClient.Do] followed by [ioutil.ReadAll] yields. *)
Inductive reply :=
| DoError (msg : string)
| ReadError (msg : string)
| Response (data : text).

(** [parseURL] tells whether [http.NewRequest] accepts the URL; [Do] is a
    round trip of an [http.Client] built with the given [Timeout]. *)
Record world := mkWorld {
  parseURL : string -> bool;
  Do : Z -> Request -> reply
}.

(** The interface [httpClient]: one method, Post. *)
Inductive httpClient :=
| DefaultClient
| CustomClient (Post : string -> string -> text -> reply).

(** The interface [logger]: a sink that takes lines. *)
Inductive logger :=
| StderrLogger
| CustomLogger (name : string).

(** The arguments of one [rpc.log.Println(fmt.Sprintf(...))]. *)
Record logLine := mkLogLine {
  log_to : logger;
  log_method : string;
  log_request : value;
  log_authHeader : option string;
  log_response : text
}.

(** FlashXRoute - Ethereum rpc client *)
Record FlashXRoute := mkFlashXRoute {
  url : string;
  client : httpClient;
  log : logger;
  Debug : bool;
  Headers : gmap string string;
  Timeout : Z
}.

Definition Second : Z := 1000000000.

(** New create new rpc client with given url *)
Definition New (url : string) (options : list (FlashXRoute -> FlashXRoute)) : FlashXRoute :=
  fold_left (fun rpc option => option rpc) options
    {| url := url; client := DefaultClient; log := StderrLogger;
       Debug := false; Headers := ∅; Timeout := 30 * Second |}.

(** WithHttpClient set custom http client *)
Definition WithHttpClient (c : httpClient) (rpc : FlashXRoute) : FlashXRoute :=
  {| url := url rpc; client := c; log := log rpc;
     Debug := Debug rpc; Headers := Headers rpc; Timeout := Timeout rpc |}.

(** WithLogger set custom logger *)
Definition WithLogger (l : logger) (rpc : FlashXRoute) : FlashXRoute :=
  {| url := url rpc; client := client rpc; log := l;
     Debug := Debug rpc; Headers := Headers rpc; Timeout := Timeout rpc |}.

(** WithDebug set debug flag *)
Definition WithDebug (enabled : bool) (rpc : FlashXRoute) : FlashXRoute :=
  {| url := url rpc; client := client rpc; log := log rpc;
     Debug := enabled; Headers := Headers rpc; Timeout := Timeout rpc |}.

(** ** flashxroute.go: the transport *)

(** [l[i]] *)
Definition index {A} (l : list A) (i : nat) : run A :=
  match l !! i with
  | Some x => Done x
  | None => Panic "index out of range"
  end.

(** The request literal both call modes start with. *)
Definition newRpcRequest (method : string) (params : list any) : run rpcRequest :=
  bind (index params 0) (fun p0 =>
  Done {| req_ID := 1; req_JSONRPC := "2.0"; req_Method := method; req_Params := p0 |}).

(** What a call returns: the raw result and the error. *)
Definition returned := (RawMessage * option error)%type.

(** The part of [Call] up to the round trip: the request, or the error
    returned before anything is sent. *)
Definition Call_request (w : world) (rpc : FlashXRoute) (method : string)
    (params : list any) : run (error + Request) :=
  bind (newRpcRequest method params) (fun request =>
  match Marshal_rpcRequest request with
  | (_, Some err) => Done (inl err)
  | (body, None) =>
      if negb (parseURL w (url rpc)) then Done (inl UrlError)
      else
        Done (inr {| http_method := "POST"; http_url := url rpc;
                     http_header :=
                       [("Content-Type", "application/json");
                        ("Accept", "application/json")]
                       ++ map_to_list (Headers rpc);
                     http_body := body |})
  end).

(** The part of [Call] after the body is read. *)
Definition Call_response (data : text) : returned :=
  let '(resp, err) := Unmarshal_rpcResponse data in
  match err with
  | Some e => (None, Some e)
  | None =>
      match resp_Error resp with
      | Some e => (None, Some (ErrRpc e))
      | None => (resp_Result resp, None)
      end
  end.

(** Call returns raw response of method call *)
Definition Call (w : world) (rpc : FlashXRoute) (method : string)
    (params : list any) : run (list logLine * returned) :=
  bind (Call_request w rpc method params) (fun r =>
  match r with
  | inl err => Done ([], (None, Some err))
  | inr req =>
      match Do w (Timeout rpc) req with
      | DoError msg => Done ([], (None, Some (TransportError msg)))
      | ReadError msg => Done ([], (None, Some (TransportError msg)))
      | Response data =>
          let lines :=
            if Debug rpc
            then [mkLogLine (log rpc) method (http_body req) None data]
            else [] in
          Done (lines, Call_response data)
      end
  end).

(** The part of [CallWithBloxrouteAuthHeader] up to the round trip. *)
Definition CallWithBloxrouteAuthHeader_request (w : world) (rpc : FlashXRoute)
    (method authHeader : string) (params : list any) : run (error + Request) :=
  bind (newRpcRequest method params) (fun request =>
  match Marshal_rpcRequest request with
  | (_, Some err) => Done (inl err)
  | (body, None) =>
      if negb (parseURL w (url rpc)) then Done (inl UrlError)
      else
        Done (inr {| http_method := "POST"; http_url := url rpc;
                     http_header :=
                       [("Content-Type", "application/json");
                        ("Accept", "application/json");
                        ("Authorization", authHeader)]
                       ++ map_to_list (Headers rpc);
                     http_body := body |})
  end).

(** The part of [CallWithBloxrouteAuthHeader] after the body is read.  The
    decoder of the standard envelope is an argument, so that a statement can
    say when the outcome does not depend on it. *)
Definition relayResponse (envelope : text -> rpcResponse * option error)
    (data : text) : returned :=
  let '(errorResp, err) := Unmarshal_RelayErrorResponse data in
  if match err with None => true | Some _ => false end
     && negb (String.eqb (Error errorResp) EmptyString)
  then (None, Some (Errorf_w_s ErrRelayErrorResponse (Error errorResp)))
  else
    let '(resp, err) := envelope data in
    match err with
    | Some e => (None, Some e)
    | None =>
        match resp_Error resp with
        | Some e => (None, Some (Errorf_w_s ErrRelayErrorResponse (Message e)))
        | None => (resp_Result resp, None)
        end
    end.

(** CallWithBloxrouteAuthHeader is like Call but also signs the request *)
Definition CallWithBloxrouteAuthHeader (w : world) (rpc : FlashXRoute)
    (method authHeader : string) (params : list any)
  : run (list logLine * returned) :=
  bind (CallWithBloxrouteAuthHeader_request w rpc method authHeader params) (fun r =>
  match r with
  | inl err => Done ([], (None, Some err))
  | inr req =>
      match Do w (Timeout rpc) req with
      | DoError msg => Done ([], (None, Some (TransportError msg)))
      | ReadError msg => Done ([], (None, Some (TransportError msg)))
      | Response data =>
          let lines :=
            if Debug rpc
            then [mkLogLine (log rpc) method (http_body req) (Some authHeader) data]
            else [] in
          Done (lines, relayResponse Unmarshal_rpcResponse data)
      end
  end).

(** RawCall returns raw response of method call (Deprecated) *)
Definition RawCall (w : world) (rpc : FlashXRoute) (method : string)
    (params : list any) : run (list logLine * returned) :=
  Call w rpc method params.

(** [rpc.call] with a [*string] target. *)
Definition call_string (w : world) (rpc : FlashXRoute) (method : string)
    (target : string) (params : list any)
  : run (list logLine * (string * option error)) :=
  bind (Call w rpc method params) (fun r =>
  match r with
  | (lines, (_, Some err)) => Done (lines, (target, Some err))
  | (lines, (result, None)) => Done (lines, Unmarshal_string result target)
  end).

(** Web3ClientVersion returns the current client version. *)
Definition Web3ClientVersion (w : world) (rpc : FlashXRoute)
  : run (list logLine * (string * option error)) :=
  call_string w rpc "web3_clientVersion" EmptyString [].

(** NetVersion returns the current network protocol version. *)
Definition NetVersion (w : world) (rpc : FlashXRoute)
  : run (list logLine * (string * option error)) :=
  call_string w rpc "net_version" EmptyString [].

(** Syncing - object with syncing data info *)
Record Syncing := mkSyncing {
  IsSyncing : bool;
  StartingBlock : Z;
  CurrentBlock : Z;
  HighestBlock : Z
}.

(** EthSyncing returns an object with data about the sync status or false.
    [unmarshal] stands for [json.Unmarshal(result, syncing)], which runs
    Syncing.UnmarshalJSON on the raw bytes of the result. *)
Definition EthSyncing_result (unmarshal : RawMessage -> Syncing -> Syncing * option error)
    (r : returned) : option Syncing * option error :=
  match r with
  | (_, Some err) => (None, Some err)
  | (result, None) =>
      let syncing := mkSyncing false 0 0 0 in
      match result with
      | Some (JBool false) => (Some syncing, None)
      | _ =>
          let '(s, err) := unmarshal result syncing in
          (Some s, err)
      end
  end.

Definition EthSyncing (unmarshal : RawMessage -> Syncing -> Syncing * option error)
    (w : world) (rpc : FlashXRoute)
  : run (list logLine * (option Syncing * option error)) :=
  bind (RawCall w rpc "eth_syncing" []) (fun r =>
  Done (fst r, EthSyncing_result unmarshal (snd r))).

(** ** Domain records *)

(** Transaction - transaction object *)
Record Transaction := mkTransaction {
  Hash : string;
  Nonce : Z;
  BlockHash : string;
  BlockNumber : option Z;
  TransactionIndex : option Z;
  From : string;
  To : string;
  Value : Z;
  Gas : Z;
  GasPrice : Z;
  Input : string
}.

(** Block - block object *)
Record Block := mkBlock {
  Number : Z;
  Block_Hash : string;
  ParentHash : string;
  Block_Nonce : string;
  Sha3Uncles : string;
  LogsBloom : string;
  TransactionsRoot : string;
  StateRoot : string;
  Miner : string;
  Difficulty : Z;
  TotalDifficulty : Z;
  ExtraData : string;
  Size : Z;
  GasLimit : Z;
  GasUsed : Z;
  Timestamp : Z;
  Uncles : list string;
  Transactions : list Transaction
}.

(** The wire shape of a block whose transactions are hashes; [hexInt] and
    [hexBig] fields hold the decoded number, so that the conversions
    [int(...)] and [big.Int(...)] of toBlock leave it as it is. *)
Record proxyBlockWithoutTransactions := mkProxyBlockWithoutTransactions {
  proxy_Number : Z;
  proxy_Hash : string;
  proxy_ParentHash : string;
  proxy_Nonce : string;
  proxy_Sha3Uncles : string;
  proxy_LogsBloom : string;
  proxy_TransactionsRoot : string;
  proxy_StateRoot : string;
  proxy_Miner : string;
  proxy_Difficulty : Z;
  proxy_TotalDifficulty : Z;
  proxy_ExtraData : string;
  proxy_Size : Z;
  proxy_GasLimit : Z;
  proxy_GasUsed : Z;
  proxy_Timestamp : Z;
  proxy_Uncles : list string;
  proxy_Transactions : list string
}.

(** The zero value of [Transaction]. *)
Definition zeroTransaction : Transaction :=
  mkTransaction EmptyString 0 EmptyString None None EmptyString EmptyString 0 0 0 EmptyString.

(** The composite literal [Transaction{Hash: h}]. *)
Definition Transaction_of_Hash (h : string) : Transaction :=
  mkTransaction h 0 EmptyString None None EmptyString EmptyString 0 0 0 EmptyString.

(** [l[i] = x] *)
Definition assign {A} (l : list A) (i : nat) (x : A) : run (list A) :=
  if decide (i < length l)%nat then Done (<[i := x]> l)
  else Panic "index out of range".

(** The loop [for i := range proxy.Transactions] of toBlock, over the
    indices that are left. *)
Fixpoint toBlock_loop (hashes : list string) (indices : list nat)
    (transactions : list Transaction) : run (list Transaction) :=
  match indices with
  | [] => Done transactions
  | i :: indices' =>
      bind (index hashes i) (fun h =>
      bind (assign transactions i (Transaction_of_Hash h)) (fun transactions' =>
      toBlock_loop hashes indices' transactions'))
  end.

Definition toBlock (proxy : proxyBlockWithoutTransactions) : run Block :=
  let n := length (proxy_Transactions proxy) in
  bind (toBlock_loop (proxy_Transactions proxy) (seq 0 n) (replicate n zeroTransaction))
    (fun transactions =>
  Done {| Number := proxy_Number proxy;
          Block_Hash := proxy_Hash proxy;
          ParentHash := proxy_ParentHash proxy;
          Block_Nonce := proxy_Nonce proxy;
          Sha3Uncles := proxy_Sha3Uncles proxy;
          LogsBloom := proxy_LogsBloom proxy;
          TransactionsRoot := proxy_TransactionsRoot proxy;
          StateRoot := proxy_StateRoot proxy;
          Miner := proxy_Miner proxy;
          Difficulty := proxy_Difficulty proxy;
          TotalDifficulty := proxy_TotalDifficulty proxy;
          ExtraData := proxy_ExtraData proxy;
          Size := proxy_Size proxy;
          GasLimit := proxy_GasLimit proxy;
          GasUsed := proxy_GasUsed proxy;
          Timestamp := proxy_Timestamp proxy;
          Uncles := proxy_Uncles proxy;
          Transactions := transactions |}).

(** ** The block simulation selector *)

(** go-ethereum values as the selector reads them. An address is the
    number its 20 bytes spell. *)
Definition Address := Z.

(** A [*types.Transaction]: what [types.Sender] recovers ([None] when it
    fails), [tx.To()] ([None] for nil), and the bytes [tx.EncodeRLP] writes. *)
Record Tx := mkTx {
  tx_Sender : option Address;
  tx_To : option Address;
  tx_EncodeRLP : list Z
}.

(** A [*types.Block]. *)
Record EthBlock := mkEthBlock {
  Coinbase : Address;
  BlockTransactions : list Tx
}.

Definition TxToRlp (tx : Tx) : string := fmt.x_bytes (tx_EncodeRLP tx).

(** Might need to strip beginning bytes *)
Definition stripFraming (rlp : string) : run string :=
  bind (slice_to 2 rlp) (fun head =>
  if String.eqb head "b9" then slice_from 6 rlp
  else
    bind (slice_to 2 rlp) (fun head' =>
    if String.eqb head' "b8" then slice_from 4 rlp
    else Done rlp)).

(** The loop of BloxrouteSimulateBlock over the transactions that are left;
    [txs] is the slice gathered so far.  The Debug prints go to standard
    output and are not part of the value. *)
Fixpoint BloxrouteSimulateBlock_loop (coinbase : Address) (maxTx : Z)
    (transactions : list Tx) (txs : list string) : run (list string) :=
  match transactions with
  | [] => Done txs
  | tx :: rest =>
      let txIsFromCoinbase :=
        match tx_Sender tx with
        | Some from => from =? coinbase
        | None => false
        end in
      if txIsFromCoinbase then BloxrouteSimulateBlock_loop coinbase maxTx rest txs
      else
        let txIsToCoinbase :=
          match tx_To tx with
          | Some to => to =? coinbase
          | None => false
          end in
        if txIsToCoinbase then BloxrouteSimulateBlock_loop coinbase maxTx rest txs
        else
          bind (stripFraming (TxToRlp tx)) (fun rlp =>
          let rlp := "0x" +:+ rlp in
          let txs := txs ++ [rlp] in
          if (0 <? maxTx) && (Z.of_nat (length txs) =? maxTx)
          then Done txs
          else BloxrouteSimulateBlock_loop coinbase maxTx rest txs)
  end.

(** The sequence BloxrouteSimulateBlock puts in the bundle request. *)
Definition BloxrouteSimulateBlock_txs (block : EthBlock) (maxTx : Z) : run (list string) :=
  BloxrouteSimulateBlock_loop (Coinbase block) maxTx (BlockTransactions block) [].

(** ** Definitions used to state the properties *)

(** A byte, and the number a big-endian byte string spells after [acc]. *)
Definition is_byte (b : Z) : Prop := 0 <= b < 256.

Definition be_value (acc : Z) (bs : list Z) : Z :=
  fold_left (fun a b => a * 256 + b) bs acc.

(** The envelope the spec describes, around a given [params] value. *)
Definition Spec_envelope (method : string) (params : value) : value :=
  JObject [("id", JNumber (Integer 1)); ("jsonrpc", JString "2.0");
           ("method", JString method); ("params", params)].

(** A relay error that carries [message]. *)
Definition RelayError (message : string) : error :=
  WrapError ErrRelayErrorResponse ("relay error response: " +:+ message).

(** A world where every URL parses and the node answers [data]. *)
Definition answering (data : text) : world :=
  {| parseURL := fun _ => true; Do := fun _ _ => Response data |}.

(** A client and a world for the concrete cases. *)
Definition relay : FlashXRoute := New "https://api.blxrbdn.com" [].

Definition relayErrorBody : text :=
  Some (JObject [("error", JString "block param must be a hex int")]).

Definition methodNotFoundBody : text :=
  Some (JObject [("id", JNumber (Integer 1)); ("jsonrpc", JString "2.0");
                 ("result", JNull);
                 ("error", JObject [("code", JNumber (Integer (-32601)));
                                    ("message", JString "method not found")])]).

(** The selection as the spec words it: a transaction is kept unless its
    recovered sender or its recipient is the coinbase. *)
Definition Spec_keep (coinbase : Address) (tx : Tx) : bool :=
  negb (bool_decide (tx_Sender tx = Some coinbase))
  && negb (bool_decide (tx_To tx = Some coinbase)).

(** The emitted form of one transaction. *)
Definition Spec_encode (tx : Tx) : run string :=
  bind (stripFraming (TxToRlp tx)) (fun rlp => Done ("0x" +:+ rlp)).

(** The cap: the first [maxTx] when [maxTx > 0], all otherwise. *)
Definition Spec_cap {A} (maxTx : Z) (l : list A) : list A :=
  if 0 <? maxTx then take (Z.to_nat maxTx) l else l.

(** Left to right, the first panic wins. *)
Fixpoint run_mapM {A B} (f : A -> run B) (l : list A) : run (list B) :=
  match l with
  | [] => Done []
  | x :: l' =>
      bind (f x) (fun y =>
      bind (run_mapM f l') (fun ys => Done (y :: ys)))
  end.

Fixpoint string_drop (n : nat) (s : string) : string :=
  match n, s with
  | S n', String _ s' => string_drop n' s'
  | _, _ => s
  end.

(** What is left to gather when [txs] has been gathered. *)
Definition remaining {A} (maxTx : Z) (txs : list string) (l : list A) : list A :=
  if 0 <? maxTx then take (Z.to_nat (maxTx - Z.of_nat (length txs))) l else l.

(* ====================================================================== *)
(** * Properties *)
(* ====================================================================== *)

(** ** The wire numeric codec *)

Section Codec.

Lemma hex_digit_cases (d : Z) :
  0 <= d < 16 ->
  d = 0 \/ d = 1 \/ d = 2 \/ d = 3 \/ d = 4 \/ d = 5 \/ d = 6 \/ d = 7 \/
  d = 8 \/ d = 9 \/ d = 10 \/ d = 11 \/ d = 12 \/ d = 13 \/ d = 14 \/ d = 15.
Proof. lia. Qed.

Ltac each_digit d H :=
  apply hex_digit_cases in H;
  repeat (destruct H as [H | H]; [subst d; vm_compute; auto |]);
  subst d; vm_compute; auto.

Lemma strconv_digit_digits (d : Z) :
  0 <= d < 16 -> strconv.digit (fmt.digits d) = Some d.
Proof. intros H. each_digit d H. Qed.

Lemma big_digitValue_digits (d : Z) :
  0 <= d < 16 -> big.digitValue (fmt.digits d) = d.
Proof. intros H. each_digit d H. Qed.

Lemma big_ReadByte_digits (d : Z) (s : string) :
  0 <= d < 16 -> big.ReadByte (String (fmt.digits d) s) = big.RByte (fmt.digits d).
Proof. intros H. each_digit d H. Qed.

Lemma digits_not_sep (d : Z) :
  0 <= d < 16 -> Ascii.eqb (fmt.digits d) "_" = false.
Proof. intros H. each_digit d H. Qed.

Lemma digits_not_sign (d : Z) :
  0 <= d < 16 ->
  Ascii.eqb (fmt.digits d) "+" = false /\ Ascii.eqb (fmt.digits d) "-" = false.
Proof. intros H. each_digit d H. Qed.

Lemma land_15 (u : Z) : 0 <= u -> Z.land u 15 = u mod 16.
Proof. intros _. change 15 with (Z.ones 4). now rewrite Z.land_ones by lia. Qed.

Lemma shiftr_4 (u : Z) : Z.shiftr u 4 = u / 16.
Proof. now rewrite Z.shiftr_div_pow2 by lia. Qed.

(** One round of the ParseUint loop on a digit written by fmt. *)
Lemma ParseUint_loop_digit (d n : Z) (rest : string) :
  0 <= d < 16 -> 0 <= n < 2 ^ 60 ->
  strconv.ParseUint_loop (String (fmt.digits d) rest) n
  = strconv.ParseUint_loop rest (n * 16 + d).
Proof.
  intros Hd Hn. cbn [strconv.ParseUint_loop].
  rewrite strconv_digit_digits by assumption.
  unfold strconv.base, strconv.cutoff, strconv.maxVal, strconv.maxUint64, wrap64.
  change (Z.shiftl 1 64) with (2 ^ 64).
  change (2 ^ 64) with 18446744073709551616 in *.
  change (2 ^ 60) with 1152921504606846976 in *.
  change ((18446744073709551616 - 1) / 16 + 1) with 1152921504606846976.
  rewrite (Z.mod_small (18446744073709551616 - 1)) by lia.
  rewrite (Z.mod_small (n * 16)) by lia.
  rewrite (Z.mod_small (n * 16 + d)) by lia.
  destruct (16 <=? d) eqn:E1; [lia |].
  destruct (1152921504606846976 <=? n) eqn:E2; [lia |].
  destruct (n * 16 + d <? n * 16) eqn:E3; [lia |].
  destruct (18446744073709551616 - 1 <? n * 16 + d) eqn:E4; [lia |].
  reflexivity.
Qed.

(** Reading back what [fmtInteger16] wrote gives the number again. *)
Lemma ParseUint_loop_fmtInteger16 (rounds : nat) :
  forall (u : Z) (buf : string),
    0 <= u < 16 ^ Z.of_nat (S rounds) -> u < 2 ^ 64 ->
    strconv.ParseUint_loop (fmt.fmtInteger16 rounds u buf) 0
    = strconv.ParseUint_loop buf u.
Proof.
  induction rounds as [| r IH]; intros u buf Hu H64.
  - cbn [fmt.fmtInteger16]. change (16 ^ Z.of_nat 1) with 16 in Hu.
    rewrite ParseUint_loop_digit by lia. f_equal.
  - cbn [fmt.fmtInteger16]. destruct (16 <=? u) eqn:E.
    + apply Z.leb_le in E.
      rewrite shiftr_4, land_15 by lia.
      assert (Hq : 0 <= u / 16 < 16 ^ Z.of_nat (S r)).
      { split; [apply Z.div_pos; lia |].
        apply Z.div_lt_upper_bound; [lia |].
        replace (16 * 16 ^ Z.of_nat (S r)) with (16 ^ Z.of_nat (S (S r))); [lia |].
        rewrite (Nat2Z.inj_succ (S r)), Z.pow_succ_r by lia. reflexivity. }
      assert (Hq64 : u / 16 < 2 ^ 60).
      { apply Z.div_lt_upper_bound; [lia |].
        change (16 * 2 ^ 60) with (2 ^ 64). lia. }
      rewrite IH by (try assumption; change (2 ^ 64) with 18446744073709551616;
                     change (2 ^ 60) with 1152921504606846976 in Hq64; lia).
      rewrite ParseUint_loop_digit; [| apply Z.mod_pos_bound; lia | lia].
      f_equal. pose proof (Z.div_mod u 16). lia.
    + apply Z.leb_gt in E. rewrite ParseUint_loop_digit by lia. f_equal.
Qed.

Lemma fmtInteger16_nonempty (rounds : nat) (u : Z) (buf : string) :
  fmt.fmtInteger16 rounds u buf <> EmptyString.
Proof.
  revert u buf. induction rounds as [| r IH]; intros u buf; cbn [fmt.fmtInteger16].
  - discriminate.
  - destruct (16 <=? u); [apply IH | discriminate].
Qed.

Lemma fmtInteger16_head (rounds : nat) :
  forall (u : Z) (buf : string),
    0 <= u < 16 ^ Z.of_nat (S rounds) ->
    exists d rest, 0 <= d < 16 /\ fmt.fmtInteger16 rounds u buf = String (fmt.digits d) rest.
Proof.
  induction rounds as [| r IH]; intros u buf Hu; cbn [fmt.fmtInteger16].
  - change (16 ^ Z.of_nat 1) with 16 in Hu. now exists u, buf.
  - destruct (16 <=? u) eqn:E.
    + apply Z.leb_le in E. apply IH. rewrite shiftr_4.
      split; [apply Z.div_pos; lia |].
      apply Z.div_lt_upper_bound; [lia |].
      replace (16 * 16 ^ Z.of_nat (S r)) with (16 ^ Z.of_nat (S (S r))); [lia |].
      rewrite (Nat2Z.inj_succ (S r)), Z.pow_succ_r by lia. reflexivity.
    + apply Z.leb_gt in E. now exists u, buf.
Qed.

Lemma TrimPrefix_0x (t : string) : strings.TrimPrefix ("0x" +:+ t) "0x" = t.
Proof. reflexivity. Qed.

Lemma ParseInt_IntToHex (n : Z) :
  0 <= n < 2 ^ 63 -> ParseInt (IntToHex n) = (n, None).
Proof.
  intros Hn. unfold ParseInt, IntToHex. rewrite TrimPrefix_0x.
  unfold fmt.x_int. destruct (n <? 0) eqn:E; [lia |].
  assert (H64 : 2 ^ 63 < 2 ^ 64) by reflexivity.
  assert (Hw : wrap64 n = n) by (unfold wrap64; apply Z.mod_small; lia).
  rewrite Hw.
  assert (Hr : 0 <= n < 16 ^ Z.of_nat 16).
  { change (16 ^ Z.of_nat 16) with (2 ^ 64). lia. }
  destruct (fmtInteger16_head 15 n EmptyString Hr) as (d & rest & Hd & Hhead).
  destruct (digits_not_sign d Hd) as [Hplus Hminus].
  assert (Hparse : strconv.ParseInt (fmt.fmtInteger16 15 n EmptyString) = (n, None)).
  { unfold strconv.ParseInt. rewrite Hhead, Hplus, Hminus.
    change (strconv.ParseUint (String (fmt.digits d) rest))
      with (strconv.ParseUint_loop (String (fmt.digits d) rest) 0).
    rewrite <- Hhead, ParseUint_loop_fmtInteger16 by lia.
    cbn [strconv.ParseUint_loop negb andb].
    change (Z.shiftl 1 63) with (2 ^ 63).
    destruct (2 ^ 63 <=? n) eqn:E2; [lia |].
    unfold int64. f_equal.
    rewrite Z.mod_small by lia. lia. }
  rewrite Hparse. f_equal. unfold int64. rewrite Z.mod_small by lia. lia.
Qed.

(** *** Arbitrary precision *)

Lemma scan_loop_digit (d : Z) (rest : string) prev inv count z :
  0 <= d < 16 ->
  big.scan_loop 16 (String (fmt.digits d) rest) prev inv count z
  = big.scan_loop 16 rest big.PrevDigit inv (count + 1) (z * 16 + d).
Proof.
  intros Hd. cbn [big.scan_loop].
  rewrite big_ReadByte_digits, digits_not_sep, big_digitValue_digits by assumption.
  destruct (16 <=? d) eqn:E; [lia | reflexivity].
Qed.

Lemma byte_nibbles (b : Z) :
  is_byte b ->
  0 <= Z.shiftr b 4 < 16 /\ 0 <= Z.land b 15 < 16
  /\ Z.shiftr b 4 * 16 + Z.land b 15 = b.
Proof.
  intros [H0 H1]. rewrite shiftr_4, land_15 by lia.
  pose proof (Z.div_mod b 16). pose proof (Z.mod_pos_bound b 16).
  assert (0 <= b / 16) by (apply Z.div_pos; lia).
  assert (b / 16 < 16) by (apply Z.div_lt_upper_bound; lia).
  lia.
Qed.

Lemma scan_loop_x_bytes (bs : list Z) :
  forall inv count z,
    Forall is_byte bs ->
    big.scan_loop 16 (fmt.x_bytes bs) big.PrevDigit inv count z
    = big.Scanned big.PrevDigit inv (count + 2 * Z.of_nat (length bs)) (be_value z bs) None.
Proof.
  induction bs as [| b bs IH]; intros inv count z Hbs.
  - cbn. f_equal. lia.
  - inversion Hbs as [| ? ? Hb Hbs']; subst.
    destruct (byte_nibbles b Hb) as (Hhi & Hlo & Hsum).
    cbn [fmt.x_bytes]. rewrite !scan_loop_digit by assumption.
    rewrite IH by assumption. cbn [be_value fold_left length].
    f_equal; [lia |]. unfold be_value. f_equal. lia.
Qed.

Lemma shiftr_8 (u : Z) : Z.shiftr u 8 = u / 256.
Proof. now rewrite Z.shiftr_div_pow2 by lia. Qed.

Lemma land_255 (u : Z) : Z.land u 255 = u mod 256.
Proof. change 255 with (Z.ones 8). now rewrite Z.land_ones by lia. Qed.

Lemma Bytes_loop_value (rounds : nat) :
  forall (u : Z) (buf : list Z),
    0 <= u < 256 ^ Z.of_nat rounds ->
    be_value 0 (big.Bytes_loop rounds u buf) = be_value u buf.
Proof.
  induction rounds as [| r IH]; intros u buf Hu; cbn [big.Bytes_loop].
  - change (256 ^ Z.of_nat 0) with 1 in Hu. now replace u with 0 by lia.
  - destruct (u =? 0) eqn:E.
    + apply Z.eqb_eq in E. now subst.
    + rewrite shiftr_8, land_255, IH.
      * unfold be_value. cbn [fold_left]. f_equal.
        pose proof (Z.div_mod u 256). lia.
      * split; [apply Z.div_pos; lia |].
        apply Z.div_lt_upper_bound; [lia |].
        rewrite Nat2Z.inj_succ, Z.pow_succ_r in Hu by lia. lia.
Qed.

Lemma Bytes_loop_bytes (rounds : nat) :
  forall (u : Z) (buf : list Z),
    Forall is_byte buf -> Forall is_byte (big.Bytes_loop rounds u buf).
Proof.
  induction rounds as [| r IH]; intros u buf Hbuf; cbn [big.Bytes_loop].
  - assumption.
  - destruct (u =? 0); [assumption |].
    apply IH. constructor; [| assumption].
    rewrite land_255. apply Z.mod_pos_bound. lia.
Qed.

Lemma Bytes_loop_length (rounds : nat) :
  forall (u : Z) (buf : list Z),
    (length buf <= length (big.Bytes_loop rounds u buf))%nat.
Proof.
  induction rounds as [| r IH]; intros u buf; cbn [big.Bytes_loop].
  - lia.
  - destruct (u =? 0); [lia |].
    etransitivity; [| apply IH]. cbn. lia.
Qed.

Lemma BitLen_rounds (n : Z) :
  0 < n -> 0 <= n < 256 ^ Z.of_nat (Z.to_nat (big.BitLen n)).
Proof.
  intros Hn. unfold big.BitLen. rewrite Z.abs_eq by lia.
  destruct (n =? 0) eqn:E; [lia |].
  pose proof (Z.log2_nonneg n) as Hl.
  rewrite Z2Nat.id by lia.
  destruct (Z.log2_spec n Hn) as [_ Hup].
  split; [lia |].
  eapply Z.lt_le_trans; [exact Hup |].
  replace (Z.succ (Z.log2 n)) with (Z.log2 n + 1) by lia.
  apply Z.pow_le_mono_l. lia.
Qed.

Lemma digits_zero (d : Z) :
  0 <= d < 16 -> Ascii.eqb "0" (fmt.digits d) = true -> d = 0.
Proof.
  intros H. apply hex_digit_cases in H.
  repeat (destruct H as [H | H]; [subst d; vm_compute; first [reflexivity | discriminate] |]).
  subst d; vm_compute; discriminate.
Qed.

Lemma nat_scan_0x (t : string) :
  big.nat_scan ("0x" +:+ t)
  = big.finish false (big.scan_loop 16 t big.PrevDigit false 0 0).
Proof. reflexivity. Qed.

Lemma Int_Scan_0x (t : string) :
  big.Int_Scan ("0x" +:+ t)
  = match big.nat_scan ("0x" +:+ t) with
    | (abs, Some e) => (abs, Some e)
    | (abs, None) => (abs, None)
    end.
Proof. reflexivity. Qed.

(** Scanning the trimmed digits of a non-empty byte string. *)
Lemma scan_trimmed (b : Z) (bs : list Z) :
  Forall is_byte (b :: bs) ->
  big.finish false
    (big.scan_loop 16 (strings.TrimPrefix (fmt.x_bytes (b :: bs)) "0") big.PrevDigit false 0 0)
  = (be_value 0 (b :: bs), None).
Proof.
  intros Hall. inversion Hall as [| ? ? Hb Hbs]; subst.
  destruct (byte_nibbles b Hb) as (Hhi & Hlo & Hsum).
  cbn [fmt.x_bytes]. unfold strings.TrimPrefix. cbn [strings.strip].
  destruct (Ascii.eqb "0" (fmt.digits (Z.shiftr b 4))) eqn:E.
  - apply digits_zero in E; [| assumption].
    rewrite scan_loop_digit, scan_loop_x_bytes by assumption.
    unfold big.finish. cbn [big.sc_err big.sc_invalSep big.sc_prev big.sc_count big.sc_z orb].
    destruct (0 + 1 + 2 * Z.of_nat (length bs) =? 0) eqn:E0; [apply Z.eqb_eq in E0; lia |].
    unfold be_value. cbn [fold_left]. do 2 f_equal. lia.
  - rewrite !scan_loop_digit, scan_loop_x_bytes by assumption.
    unfold big.finish. cbn [big.sc_err big.sc_invalSep big.sc_prev big.sc_count big.sc_z orb].
    destruct (0 + 1 + 1 + 2 * Z.of_nat (length bs) =? 0) eqn:E0; [apply Z.eqb_eq in E0; lia |].
    unfold be_value. cbn [fold_left]. do 2 f_equal. lia.
Qed.

Lemma ParseBigInt_BigToHex (n : Z) :
  0 <= n -> ParseBigInt (BigToHex n) = (n, None).
Proof.
  intros Hn. destruct (Z.eq_dec n 0) as [-> | Hnz]; [reflexivity |].
  assert (Hpos : 0 < n) by lia.
  unfold BigToHex.
  assert (Hbl : (big.BitLen n =? 0) = false).
  { unfold big.BitLen. rewrite Z.abs_eq by lia.
    destruct (n =? 0) eqn:E; [lia |].
    pose proof (Z.log2_nonneg n). lia. }
  rewrite Hbl. unfold ParseBigInt. rewrite Int_Scan_0x, nat_scan_0x.
  pose proof (BitLen_rounds n Hpos) as Hrounds.
  assert (Hval : be_value 0 (big.Bytes n) = n).
  { unfold big.Bytes. rewrite Z.abs_eq by lia.
    now rewrite Bytes_loop_value by assumption. }
  assert (Hbytes : Forall is_byte (big.Bytes n)).
  { unfold big.Bytes. apply Bytes_loop_bytes. constructor. }
  destruct (big.Bytes n) as [| b bs] eqn:EB.
  - cbn in Hval. lia.
  - rewrite scan_trimmed by assumption. now rewrite Hval.
Qed.

End Codec.

(** ** The transport *)

Section Transport.

Variable w : world.
Variable rpc : FlashXRoute.

Lemma newRpcRequest_cons (method : string) (p : any) (ps : list any) :
  newRpcRequest method (p :: ps)
  = Done {| req_ID := 1; req_JSONRPC := "2.0"; req_Method := method; req_Params := p |}.
Proof. reflexivity. Qed.

Lemma newRpcRequest_nil (method : string) :
  newRpcRequest method [] = Panic "index out of range".
Proof. reflexivity. Qed.

Lemma Errorf_relay (message : string) :
  Errorf_w_s ErrRelayErrorResponse message = RelayError message.
Proof. reflexivity. Qed.

(** Once a request is built and the body is read, the authenticated call
    returns what [relayResponse] makes of the body. *)
Lemma CallWithBloxrouteAuthHeader_Response method authHeader params req data :
  CallWithBloxrouteAuthHeader_request w rpc method authHeader params = Done (inr req) ->
  Do w (Timeout rpc) req = Response data ->
  exists lines,
    CallWithBloxrouteAuthHeader w rpc method authHeader params
    = Done (lines, relayResponse Unmarshal_rpcResponse data).
Proof.
  intros Hreq Hdo. unfold CallWithBloxrouteAuthHeader.
  rewrite Hreq. cbn [bind]. rewrite Hdo. eauto.
Qed.

Lemma Call_Response method params req data :
  Call_request w rpc method params = Done (inr req) ->
  Do w (Timeout rpc) req = Response data ->
  exists lines,
    Call w rpc method params = Done (lines, Call_response data).
Proof.
  intros Hreq Hdo. unfold Call.
  rewrite Hreq. cbn [bind]. rewrite Hdo. eauto.
Qed.

(** The flat shape wins whatever the envelope decoder would say. *)
Lemma relayResponse_flat envelope data r :
  Unmarshal_RelayErrorResponse data = (r, None) ->
  Error r <> EmptyString ->
  relayResponse envelope data = (None, Some (RelayError (Error r))).
Proof.
  intros Hflat Hne. unfold relayResponse. rewrite Hflat.
  destruct (String.eqb_spec (Error r) EmptyString) as [Heq | _]; [contradiction |].
  reflexivity.
Qed.

Lemma relayResponse_envelope data r err resp e :
  Unmarshal_RelayErrorResponse data = (r, err) ->
  err <> None \/ Error r = EmptyString ->
  Unmarshal_rpcResponse data = (resp, None) ->
  resp_Error resp = Some e ->
  relayResponse Unmarshal_rpcResponse data = (None, Some (RelayError (Message e))).
Proof.
  intros Hflat Habsent Henv He. unfold relayResponse. rewrite Hflat.
  assert (Hguard : match err with None => true | Some _ => false end
                   && negb (String.eqb (Error r) EmptyString) = false).
  { destruct Habsent as [Herr | Hempty].
    - destruct err; [reflexivity | contradiction].
    - rewrite Hempty. destruct err; reflexivity. }
  rewrite Hguard, Henv, He. reflexivity.
Qed.

Lemma Call_response_error data resp e :
  Unmarshal_rpcResponse data = (resp, None) ->
  resp_Error resp = Some e ->
  Call_response data = (None, Some (ErrRpc e)).
Proof.
  intros Henv He. unfold Call_response. now rewrite Henv, He.
Qed.

End Transport.

(** The members of the standard envelope, one key at a time. *)
Section EnvelopeMembers.

Variables (r : rpcResponse) (e : RpcError) (saved : option error) (v : value).

Lemma rpcResponse_member_id :
  rpcResponse_member (r, saved) ("id", v)
  = let '(x, err) := storeInt (resp_ID r) v in
    (mkRpcResponse x (resp_JSONRPC r) (resp_Result r) (resp_Error r), saveError saved err).
Proof. reflexivity. Qed.

Lemma rpcResponse_member_jsonrpc :
  rpcResponse_member (r, saved) ("jsonrpc", v)
  = let '(x, err) := storeString (resp_JSONRPC r) v in
    (mkRpcResponse (resp_ID r) x (resp_Result r) (resp_Error r), saveError saved err).
Proof. reflexivity. Qed.

Lemma rpcResponse_member_result :
  rpcResponse_member (r, saved) ("result", v)
  = (mkRpcResponse (resp_ID r) (resp_JSONRPC r) (Some v) (resp_Error r), saved).
Proof. reflexivity. Qed.

Lemma rpcResponse_member_error :
  rpcResponse_member (r, saved) ("error", v)
  = let '(x, err) := storeRpcError (resp_Error r) v in
    (mkRpcResponse (resp_ID r) (resp_JSONRPC r) (resp_Result r) x, saveError saved err).
Proof. reflexivity. Qed.

Lemma RpcError_member_code :
  RpcError_member (e, saved) ("code", v)
  = let '(c, err) := storeInt (Code e) v in
    (mkRpcError c (Message e), saveError saved err).
Proof. reflexivity. Qed.

Lemma RpcError_member_message :
  RpcError_member (e, saved) ("message", v)
  = let '(t, err) := storeString (Message e) v in
    (mkRpcError (Code e) t, saveError saved err).
Proof. reflexivity. Qed.

End EnvelopeMembers.

(** C1, as stated, fails: the authenticated call with the single parameter
    [x] sends [x] itself in the field params, not the array that holds it. *)
Lemma C1_params_is_not_the_array :
  exists req,
    CallWithBloxrouteAuthHeader_request (answering None) relay "blxr_tx" "auth"
      [Some (JObject [("transaction", JString "f86b")])] = Done (inr req)
    /\ http_body req
       = Spec_envelope "blxr_tx" (JObject [("transaction", JString "f86b")])
    /\ http_body req
       <> Spec_envelope "blxr_tx" (JArray [JObject [("transaction", JString "f86b")]]).
Proof.
  eexists. split; [reflexivity |]. split; [reflexivity |]. discriminate.
Qed.

(** C1, amended: for every authenticated call whose parameter list starts
    with [x], on a URL that parses, the request handed to the transport is a
    POST whose body is the envelope with id 1, jsonrpc 2.0, the method name,
    and params equal to [x], the first parameter itself; the call then
    returns what the transport's reply to that request decodes to. *)
Theorem C1_auth_body_carries_first_param :
  forall (w : world) (rpc : FlashXRoute) (method authHeader : string)
         (x : value) (rest : list any),
    parseURL w (url rpc) = true ->
    exists req,
      CallWithBloxrouteAuthHeader_request w rpc method authHeader (Some x :: rest)
      = Done (inr req)
      /\ http_method req = "POST"
      /\ http_body req = Spec_envelope method x
      /\ forall data,
           Do w (Timeout rpc) req = Response data ->
           exists lines,
             CallWithBloxrouteAuthHeader w rpc method authHeader (Some x :: rest)
             = Done (lines, relayResponse Unmarshal_rpcResponse data).
Proof.
  intros w rpc method authHeader x rest Hurl.
  unfold CallWithBloxrouteAuthHeader_request.
  rewrite newRpcRequest_cons. cbn [bind Marshal_rpcRequest req_Params req_ID
    req_JSONRPC req_Method]. rewrite Hurl. cbn [negb].
  eexists. split; [reflexivity |]. split; [reflexivity |]. split; [reflexivity |].
  intros data Hdo.
  eapply CallWithBloxrouteAuthHeader_Response; [| exact Hdo].
  unfold CallWithBloxrouteAuthHeader_request.
  rewrite newRpcRequest_cons. cbn [bind Marshal_rpcRequest req_Params req_ID
    req_JSONRPC req_Method]. now rewrite Hurl.
Qed.

Lemma C1_auth_body_witness :
  parseURL (answering None) (url relay) = true
  /\ exists req,
      CallWithBloxrouteAuthHeader_request (answering None) relay "blxr_tx" "auth"
        [Some (JString "f86b")] = Done (inr req)
      /\ http_method req = "POST"
      /\ http_body req = Spec_envelope "blxr_tx" (JString "f86b")
      /\ forall data,
           Do (answering None) (Timeout relay) req = Response data ->
           exists lines,
             CallWithBloxrouteAuthHeader (answering None) relay "blxr_tx" "auth"
               [Some (JString "f86b")]
             = Done (lines, relayResponse Unmarshal_rpcResponse data).
Proof.
  split; [reflexivity |].
  apply (C1_auth_body_carries_first_param (answering None) relay "blxr_tx" "auth"
           (JString "f86b") []).
  reflexivity.
Defined.

(** C2: a call with no parameters panics at [params[0]] before anything is
    sent: both call modes, and the wrappers without parameters that go
    through them; with one parameter or more both call modes return. *)
Theorem C2_no_params_panics :
  forall (w : world) (rpc : FlashXRoute) (method authHeader : string),
    Call w rpc method [] = Panic "index out of range"
    /\ CallWithBloxrouteAuthHeader w rpc method authHeader [] = Panic "index out of range"
    /\ Web3ClientVersion w rpc = Panic "index out of range"
    /\ NetVersion w rpc = Panic "index out of range"
    /\ (forall (p : any) (ps : list any),
          (exists r, Call w rpc method (p :: ps) = Done r)
          /\ (exists r, CallWithBloxrouteAuthHeader w rpc method authHeader (p :: ps) = Done r)).
Proof.
  intros w rpc method authHeader.
  split; [reflexivity |]. split; [reflexivity |].
  split; [reflexivity |]. split; [reflexivity |].
  intros p ps. split.
  - unfold Call, Call_request. rewrite newRpcRequest_cons. cbn [bind].
    destruct (Marshal_rpcRequest _) as [body [err |]]; cbn [bind]; [eauto |].
    destruct (negb (parseURL w (url rpc))); cbn [bind]; [eauto |].
    destruct (Do w (Timeout rpc) _); eauto.
  - unfold CallWithBloxrouteAuthHeader, CallWithBloxrouteAuthHeader_request.
    rewrite newRpcRequest_cons. cbn [bind].
    destruct (Marshal_rpcRequest _) as [body [err |]]; cbn [bind]; [eauto |].
    destruct (negb (parseURL w (url rpc))); cbn [bind]; [eauto |].
    destruct (Do w (Timeout rpc) _); eauto.
Qed.

(** C3: on the authenticated path a body that decodes to the flat shape
    with a non-empty error string fails with the relay error of that string,
    whatever decoder is given for the standard envelope; when the flat shape
    is absent and the body decodes to an envelope with an error, the call
    fails with the relay error of the envelope error's message, not with the
    RpcError; every body that is the object with the one member error, a
    non-empty string, gives the relay error of that string, and so does the
    body of the spec's example, with that exact message. *)
Theorem C3_relay_error_precedence :
  forall (w : world) (rpc : FlashXRoute) (method authHeader : string)
         (params : list any) (req : Request) (data : text),
    CallWithBloxrouteAuthHeader_request w rpc method authHeader params = Done (inr req) ->
    Do w (Timeout rpc) req = Response data ->
    (forall r,
        Unmarshal_RelayErrorResponse data = (r, None) ->
        Error r <> EmptyString ->
        (forall envelope,
            relayResponse envelope data = (None, Some (RelayError (Error r))))
        /\ exists lines,
            CallWithBloxrouteAuthHeader w rpc method authHeader params
            = Done (lines, (None, Some (RelayError (Error r)))))
    /\ (forall r err resp e,
          Unmarshal_RelayErrorResponse data = (r, err) ->
          err <> None \/ Error r = EmptyString ->
          Unmarshal_rpcResponse data = (resp, None) ->
          resp_Error resp = Some e ->
          exists lines,
            CallWithBloxrouteAuthHeader w rpc method authHeader params
            = Done (lines, (None, Some (RelayError (Message e))))
            /\ RelayError (Message e) <> ErrRpc e)
    /\ (forall envelope (message : string),
          message <> EmptyString ->
          relayResponse envelope (Some (JObject [("error", JString message)]))
          = (None, Some (RelayError message)))
    /\ (forall envelope,
          relayResponse envelope relayErrorBody
          = (None, Some (RelayError "block param must be a hex int"))).
Proof.
  intros w rpc method authHeader params req data Hreq Hdo.
  destruct (CallWithBloxrouteAuthHeader_Response w rpc _ _ _ _ _ Hreq Hdo)
    as [lines Hcall].
  split; [| split; [| split]].
  - intros r Hflat Hne. split.
    + intros envelope. now apply relayResponse_flat.
    + exists lines. rewrite Hcall. do 2 f_equal. now apply relayResponse_flat.
  - intros r err resp e Hflat Habsent Henv He.
    exists lines. split; [| discriminate].
    rewrite Hcall. do 2 f_equal. eapply relayResponse_envelope; eauto.
  - intros envelope message Hne.
    apply (relayResponse_flat envelope _ (mkRelayErrorResponse message));
      [reflexivity | exact Hne].
  - intros envelope. reflexivity.
Qed.

Lemma C3_relay_error_witness :
  exists lines,
    CallWithBloxrouteAuthHeader (answering relayErrorBody) relay "blxr_simulate_bundle"
      "auth" [Some (JObject [])]
    = Done (lines, (None, Some (RelayError "block param must be a hex int")))
    /\ exists lines',
      CallWithBloxrouteAuthHeader (answering methodNotFoundBody) relay
        "blxr_simulate_bundle" "auth" [Some (JObject [])]
      = Done (lines', (None, Some (RelayError "method not found"))).
Proof.
  assert (Hreq : forall data, { req |
            CallWithBloxrouteAuthHeader_request (answering data) relay
              "blxr_simulate_bundle" "auth" [Some (JObject [])] = Done (inr req) }).
  { intros data. eexists. reflexivity. }
  destruct (Hreq relayErrorBody) as [req1 Hreq1].
  destruct (Hreq methodNotFoundBody) as [req2 Hreq2].
  assert (Hflat1 : Unmarshal_RelayErrorResponse relayErrorBody
                   = (mkRelayErrorResponse "block param must be a hex int", None))
    by (vm_compute; reflexivity).
  assert (Hflat2 : Unmarshal_RelayErrorResponse methodNotFoundBody
                   = (mkRelayErrorResponse EmptyString, Some UnmarshalTypeError))
    by (vm_compute; reflexivity).
  assert (Henv2 : Unmarshal_rpcResponse methodNotFoundBody
                  = (mkRpcResponse 1 "2.0" (Some JNull)
                       (Some (mkRpcError (-32601) "method not found")), None))
    by (vm_compute; reflexivity).
  destruct (C3_relay_error_precedence (answering relayErrorBody) relay
              "blxr_simulate_bundle" "auth" [Some (JObject [])] req1 relayErrorBody
              Hreq1 eq_refl) as (Hflat & _ & _ & _).
  destruct (Hflat _ Hflat1) as [_ [lines Hlines]]; [discriminate |].
  exists lines. split; [exact Hlines |].
  destruct (C3_relay_error_precedence (answering methodNotFoundBody) relay
              "blxr_simulate_bundle" "auth" [Some (JObject [])] req2 methodNotFoundBody
              Hreq2 eq_refl) as (_ & Henv & _ & _).
  assert (Habsent : Some UnmarshalTypeError <> None
                    \/ Error (mkRelayErrorResponse EmptyString) = EmptyString)
    by (right; reflexivity).
  destruct (Henv (mkRelayErrorResponse EmptyString) (Some UnmarshalTypeError)
              (mkRpcResponse 1 "2.0" (Some JNull)
                 (Some (mkRpcError (-32601) "method not found")))
              (mkRpcError (-32601) "method not found")
              Hflat2 Habsent Henv2 eq_refl)
    as [lines' [Hlines' _]].
  exists lines'. exact Hlines'.
Defined.

(** C7: on the plain path a body that decodes to the standard envelope with
    an error fails with that RpcError, code and message as they came, and
    no result; an envelope with integer id and code in range and string
    fields decodes that way; the envelope of the spec's example gives code
    -32601 and message method not found. *)
Theorem C7_protocol_error :
  forall (w : world) (rpc : FlashXRoute) (method : string)
         (params : list any) (req : Request) (data : text),
    Call_request w rpc method params = Done (inr req) ->
    Do w (Timeout rpc) req = Response data ->
    (forall resp e,
        Unmarshal_rpcResponse data = (resp, None) ->
        resp_Error resp = Some e ->
        exists lines,
          Call w rpc method params = Done (lines, (None, Some (ErrRpc e))))
    /\ (forall (id code : Z) (version message : string) (result : value),
          is_int id -> is_int code ->
          Call_response
            (Some (JObject [("id", JNumber (Integer id)); ("jsonrpc", JString version);
                            ("result", result);
                            ("error", JObject [("code", JNumber (Integer code));
                                               ("message", JString message)])]))
          = (None, Some (ErrRpc (mkRpcError code message))))
    /\ Call_response methodNotFoundBody
       = (None, Some (ErrRpc (mkRpcError (-32601) "method not found"))).
Proof.
  intros w rpc method params req data Hreq Hdo.
  destruct (Call_Response w rpc _ _ _ _ Hreq Hdo) as [lines Hcall].
  split; [| split].
  - intros resp e Henv He. exists lines. rewrite Hcall. do 2 f_equal.
    eapply Call_response_error; eauto.
  - intros id code version message result [Hid0 Hid1] [Hc0 Hc1].
    assert (Hid : (- 2 ^ 63 <=? id) && (id <? 2 ^ 63) = true).
    { apply andb_true_intro. split; [apply Z.leb_le | apply Z.ltb_lt]; assumption. }
    assert (Hcode : (- 2 ^ 63 <=? code) && (code <? 2 ^ 63) = true).
    { apply andb_true_intro. split; [apply Z.leb_le | apply Z.ltb_lt]; assumption. }
    unfold Call_response, Unmarshal_rpcResponse, Unmarshal, decodeStruct.
    cbn [fold_left].
    rewrite rpcResponse_member_id; cbn [storeInt resp_ID]; rewrite Hid.
    rewrite rpcResponse_member_jsonrpc; cbn [storeString].
    rewrite rpcResponse_member_result.
    rewrite rpcResponse_member_error; cbn [storeRpcError decodeStruct fold_left].
    rewrite RpcError_member_code; cbn [storeInt Code]; rewrite Hcode.
    rewrite RpcError_member_message; cbn [storeString].
    reflexivity.
  - vm_compute. reflexivity.
Qed.

Lemma C7_protocol_error_witness :
  exists lines,
    Call (answering methodNotFoundBody) relay "eth_blockNumber" [Some (JArray [])]
    = Done (lines, (None, Some (ErrRpc (mkRpcError (-32601) "method not found")))).
Proof.
  assert (Hreq : { req |
            Call_request (answering methodNotFoundBody) relay
              "eth_blockNumber" [Some (JArray [])] = Done (inr req) }).
  { eexists. reflexivity. }
  destruct Hreq as [req Hreq].
  assert (Henv : Unmarshal_rpcResponse methodNotFoundBody
                 = (mkRpcResponse 1 "2.0" (Some JNull)
                      (Some (mkRpcError (-32601) "method not found")), None))
    by (vm_compute; reflexivity).
  destruct (C7_protocol_error (answering methodNotFoundBody) relay
              "eth_blockNumber" [Some (JArray [])] req methodNotFoundBody
              Hreq eq_refl) as (Herr & _ & _).
  exact (Herr (mkRpcResponse 1 "2.0" (Some JNull)
                 (Some (mkRpcError (-32601) "method not found")))
              (mkRpcError (-32601) "method not found") Henv eq_refl).
Defined.

(** C8: EthSyncing hands no parameter to RawCall, so it panics at
    [params[0]] before a request is sent, whatever the node would answer;
    the code after the call is as the spec describes: on the result [false]
    it returns the zero record without running the decoder. *)
Theorem C8_EthSyncing_panics :
  forall (unmarshal : RawMessage -> Syncing -> Syncing * option error)
         (w : world) (rpc : FlashXRoute),
    EthSyncing unmarshal w rpc = Panic "index out of range"
    /\ EthSyncing unmarshal (answering (Some (JObject [("result", JBool false)]))) relay
       = Panic "index out of range"
    /\ EthSyncing_result unmarshal (Some (JBool false), None)
       = (Some (mkSyncing false 0 0 0), None).
Proof. intros. repeat split; reflexivity. Qed.

(** C10: two clients that differ only in the field [client] behave the
    same on both call modes, in every world: the result, the panic and the
    lines logged are equal; in particular WithHttpClient changes nothing. *)
Theorem C10_client_field_is_not_read :
  forall (w : world) (method authHeader : string) (params : list any),
    (forall rpc1 rpc2 : FlashXRoute,
        url rpc1 = url rpc2 -> log rpc1 = log rpc2 -> Debug rpc1 = Debug rpc2 ->
        Headers rpc1 = Headers rpc2 -> Timeout rpc1 = Timeout rpc2 ->
        Call w rpc1 method params = Call w rpc2 method params
        /\ CallWithBloxrouteAuthHeader w rpc1 method authHeader params
           = CallWithBloxrouteAuthHeader w rpc2 method authHeader params)
    /\ (forall (rpc : FlashXRoute) (c : httpClient),
          Call w (WithHttpClient c rpc) method params = Call w rpc method params
          /\ CallWithBloxrouteAuthHeader w (WithHttpClient c rpc) method authHeader params
             = CallWithBloxrouteAuthHeader w rpc method authHeader params).
Proof.
  intros w method authHeader params. split.
  - intros [u1 c1 l1 d1 h1 t1] [u2 c2 l2 d2 h2 t2]; cbn.
    intros -> -> -> -> ->. split; reflexivity.
  - intros [u c0 l d h t] c. split; reflexivity.
Qed.

Lemma C10_client_field_witness :
  Call (answering methodNotFoundBody) relay "eth_coinbase" [Some JNull]
  = Call (answering methodNotFoundBody)
      (New "https://api.blxrbdn.com"
         [WithHttpClient (CustomClient (fun _ _ _ => DoError "refused"))])
      "eth_coinbase" [Some JNull].
Proof.
  destruct (C10_client_field_is_not_read (answering methodNotFoundBody)
              "eth_coinbase" "auth" [Some JNull]) as [Hsame _].
  destruct (Hsame relay
              (New "https://api.blxrbdn.com"
                 [WithHttpClient (CustomClient (fun _ _ _ => DoError "refused"))])
              eq_refl eq_refl eq_refl eq_refl eq_refl) as [Hcall _].
  exact Hcall.
Defined.

(** ** The hash-only block decoder *)

Section HashOnly.

Variable hashes : list string.

(** With the first [k] slots written, the loop over the indices that are
    left writes the others. *)
Lemma toBlock_loop_fills (m : nat) :
  forall (k : nat) (rest : list Transaction),
    (k + m)%nat = length hashes ->
    length rest = m ->
    toBlock_loop hashes (seq k m) ((Transaction_of_Hash <$> take k hashes) ++ rest)
    = Done (Transaction_of_Hash <$> hashes).
Proof.
  induction m as [| m IH]; intros k rest Hk Hrest.
  - destruct rest; [| discriminate]. cbn [seq toBlock_loop].
    rewrite app_nil_r, take_ge by lia. reflexivity.
  - destruct rest as [| r0 rest']; [discriminate |].
    cbn [seq toBlock_loop].
    destruct (lookup_lt_is_Some_2 hashes k ltac:(lia)) as [h Hh].
    unfold index. rewrite Hh. cbn [bind].
    unfold assign.
    assert (Hlen : length (take k hashes) = k) by (rewrite length_take; lia).
    destruct (decide (k < length ((Transaction_of_Hash <$> take k hashes) ++ r0 :: rest'))%nat)
      as [_ | Hno].
    2: { exfalso. apply Hno. rewrite length_app, length_fmap, Hlen. cbn. lia. }
    cbn [bind].
    rewrite insert_app_r_alt by (rewrite length_fmap, Hlen; lia).
    rewrite length_fmap, Hlen, Nat.sub_diag. cbn [list_insert].
    replace ((Transaction_of_Hash <$> take k hashes) ++ Transaction_of_Hash h :: rest')
      with ((Transaction_of_Hash <$> take (S k) hashes) ++ rest').
    + apply IH; [lia | cbn in Hrest; lia].
    + rewrite (take_S_r _ _ _ Hh), fmap_app, <- app_assoc. reflexivity.
Qed.

End HashOnly.

(** C9: the hash-only decoder returns a block whose Transactions hold, in
    wire order and in the same number, one record for each hash string, with
    that Hash and every other field at its zero value. *)
Theorem C9_hash_only_transactions :
  forall proxy : proxyBlockWithoutTransactions,
    exists block,
      toBlock proxy = Done block
      /\ Transactions block
         = (fun h => mkTransaction h 0 EmptyString None None EmptyString EmptyString 0 0 0 EmptyString)
             <$> proxy_Transactions proxy
      /\ length (Transactions block) = length (proxy_Transactions proxy)
      /\ (forall (i : nat) (h : string),
            proxy_Transactions proxy !! i = Some h ->
            Transactions block !! i = Some (mkTransaction h 0 EmptyString None None EmptyString EmptyString 0 0 0 EmptyString))
      /\ Block_Hash block = proxy_Hash proxy
      /\ Number block = proxy_Number proxy.
Proof.
  intros proxy. unfold toBlock.
  pose proof (toBlock_loop_fills (proxy_Transactions proxy)
                (length (proxy_Transactions proxy)) 0
                (replicate (length (proxy_Transactions proxy)) zeroTransaction)
                eq_refl (length_replicate _ _)) as Hloop.
  rewrite take_0, fmap_nil, app_nil_l in Hloop. rewrite Hloop. cbn [bind].
  eexists. split; [reflexivity |]. cbn [Transactions Block_Hash Number].
  split; [reflexivity |]. split; [apply length_fmap |].
  split; [| split; reflexivity].
  intros i h Hi. rewrite list_lookup_fmap, Hi. reflexivity.
Qed.

(** ** The block simulation selector *)

Section Selector.

Variable coinbase : Address.
Variable maxTx : Z.

Lemma Spec_keep_code (tx : Tx) :
  Spec_keep coinbase tx
  = negb (match tx_Sender tx with Some from => from =? coinbase | None => false end)
    && negb (match tx_To tx with Some to => to =? coinbase | None => false end).
Proof.
  unfold Spec_keep. f_equal; f_equal.
  - destruct (tx_Sender tx) as [a |].
    + destruct (Z.eqb_spec a coinbase) as [-> | Hne].
      * now rewrite bool_decide_eq_true_2.
      * rewrite bool_decide_eq_false_2; [reflexivity | congruence].
    + now rewrite bool_decide_eq_false_2.
  - destruct (tx_To tx) as [a |].
    + destruct (Z.eqb_spec a coinbase) as [-> | Hne].
      * now rewrite bool_decide_eq_true_2.
      * rewrite bool_decide_eq_false_2; [reflexivity | congruence].
    + now rewrite bool_decide_eq_false_2.
Qed.

Lemma remaining_cons {A} (txs : list string) (x : A) (l : list A) :
  (0 < maxTx -> Z.of_nat (length txs) < maxTx) ->
  remaining maxTx txs (x :: l)
  = x :: (if 0 <? maxTx
          then take (Z.to_nat (maxTx - Z.of_nat (length txs) - 1)) l else l).
Proof.
  intros Hroom. unfold remaining. destruct (0 <? maxTx) eqn:E; [| reflexivity].
  apply Z.ltb_lt in E. specialize (Hroom E).
  replace (Z.to_nat (maxTx - Z.of_nat (length txs)))
    with (S (Z.to_nat (maxTx - Z.of_nat (length txs) - 1))) by lia.
  reflexivity.
Qed.

(** The loop gathers, in block order, the emitted forms of the kept
    transactions up to the cap, and panics where the first of them does. *)
Lemma BloxrouteSimulateBlock_loop_spec (transactions : list Tx) :
  forall txs : list string,
    (0 < maxTx -> Z.of_nat (length txs) < maxTx) ->
    BloxrouteSimulateBlock_loop coinbase maxTx transactions txs
    = bind (run_mapM Spec_encode
              (remaining maxTx txs (filter (fun tx => Spec_keep coinbase tx = true) transactions)))
        (fun out => Done (txs ++ out)).
Proof.
  induction transactions as [| tx rest IH]; intros txs Hroom.
  - cbn [BloxrouteSimulateBlock_loop]. rewrite filter_nil.
    unfold remaining. rewrite take_nil.
    destruct (0 <? maxTx); cbn; now rewrite app_nil_r.
  - cbn [BloxrouteSimulateBlock_loop].
    pose proof (Spec_keep_code tx) as Hkeep.
    destruct (match tx_Sender tx with Some from => from =? coinbase | None => false end).
    { rewrite filter_cons_False by (rewrite Hkeep; discriminate). now apply IH. }
    destruct (match tx_To tx with Some to => to =? coinbase | None => false end).
    { rewrite filter_cons_False by (rewrite Hkeep; discriminate). now apply IH. }
    rewrite filter_cons_True by (rewrite Hkeep; reflexivity).
    rewrite remaining_cons by assumption.
    cbn [run_mapM]. unfold Spec_encode at 1.
    destruct (stripFraming (TxToRlp tx)) as [rlp | msg]; [| reflexivity].
    cbn [bind]. rewrite length_app. cbn [length].
    destruct (0 <? maxTx) eqn:Epos.
    + apply Z.ltb_lt in Epos. specialize (Hroom Epos).
      destruct (Z.of_nat (length txs + 1) =? maxTx) eqn:Efull; cbn [andb].
      * apply Z.eqb_eq in Efull.
        replace (Z.to_nat (maxTx - Z.of_nat (length txs) - 1)) with 0%nat by lia.
        rewrite take_0. reflexivity.
      * apply Z.eqb_neq in Efull.
        rewrite IH by (rewrite length_app; cbn [length]; lia).
        unfold remaining. rewrite (proj2 (Z.ltb_lt 0 maxTx) Epos).
        rewrite length_app. cbn [length].
        replace (Z.to_nat (maxTx - Z.of_nat (length txs + 1)))
          with (Z.to_nat (maxTx - Z.of_nat (length txs) - 1)) by lia.
        destruct (run_mapM Spec_encode _) as [out | msg]; [| reflexivity].
        cbn [bind]. now rewrite <- app_assoc.
    + cbn [andb].
      rewrite IH by (intros Hpos; apply Z.ltb_lt in Hpos; congruence).
      unfold remaining. rewrite Epos.
      destruct (run_mapM Spec_encode _) as [out | msg]; [| reflexivity].
      cbn [bind]. now rewrite <- app_assoc.
Qed.

Lemma BloxrouteSimulateBlock_txs_spec (transactions : list Tx) :
  BloxrouteSimulateBlock_txs (mkEthBlock coinbase transactions) maxTx
  = run_mapM Spec_encode
      (Spec_cap maxTx (filter (fun tx => Spec_keep coinbase tx = true) transactions)).
Proof.
  unfold BloxrouteSimulateBlock_txs. cbn [Coinbase BlockTransactions].
  rewrite BloxrouteSimulateBlock_loop_spec by (cbn; lia).
  unfold remaining, Spec_cap. cbn [length]. rewrite Z.sub_0_r.
  destruct (run_mapM Spec_encode _); reflexivity.
Qed.

Lemma run_mapM_length {A B} (f : A -> run B) (l : list A) (out : list B) :
  run_mapM f l = Done out -> length out = length l.
Proof.
  revert out. induction l as [| x l IH]; intros out; cbn [run_mapM].
  - now intros [= <-].
  - destruct (f x) as [y | ?]; [| discriminate]. cbn [bind].
    destruct (run_mapM f l) as [ys | ?]; [| discriminate]. cbn [bind].
    intros [= <-]. cbn. f_equal. now apply IH.
Qed.

End Selector.

Section Framing.

Lemma head_is_prefix (c1 c2 p1 p2 : ascii) (r : string) :
  String.eqb (String c1 (String c2 EmptyString)) (String p1 (String p2 EmptyString))
  = strings.HasPrefix (String c1 (String c2 r)) (String p1 (String p2 EmptyString)).
Proof.
  unfold strings.HasPrefix. cbn.
  destruct (Ascii.eqb_spec c1 p1), (Ascii.eqb_spec p1 c1); try congruence;
    destruct (Ascii.eqb_spec c2 p2), (Ascii.eqb_spec p2 c2); try congruence;
    reflexivity.
Qed.

Lemma HasPrefix_2 (c1 c2 p1 p2 : ascii) (r : string) :
  strings.HasPrefix (String c1 (String c2 r)) (String p1 (String p2 EmptyString))
  = Ascii.eqb p1 c1 && Ascii.eqb p2 c2.
Proof.
  unfold strings.HasPrefix. cbn [strings.strip].
  destruct (Ascii.eqb p1 c1), (Ascii.eqb p2 c2); reflexivity.
Qed.

Lemma slice_from_drop (n : nat) :
  forall s : string, (n <= String.length s)%nat -> slice_from n s = Done (string_drop n s).
Proof.
  induction n as [| n IH]; intros s Hlen.
  - now destruct s.
  - destruct s as [| c s]; cbn in Hlen; [lia |].
    cbn [slice_from string_drop]. apply IH. lia.
Qed.

Lemma stripFraming_cases (rlp : string) :
  (2 <= String.length rlp)%nat ->
  stripFraming rlp
  = if strings.HasPrefix rlp "b9" then slice_from 6 rlp
    else if strings.HasPrefix rlp "b8" then slice_from 4 rlp
    else Done rlp.
Proof.
  intros Hlen. destruct rlp as [| c1 [| c2 r]]; cbn in Hlen; try lia.
  unfold stripFraming. cbn [slice_to bind].
  change "b9" with (String "b" (String "9" EmptyString)).
  change "b8" with (String "b" (String "8" EmptyString)).
  rewrite !head_is_prefix with (r := r). reflexivity.
Qed.

End Framing.

(** C5: the selector returns, in block order, the emitted forms of the
    transactions it keeps, cut at the cap (all of them when maxTx is not
    positive), or panics where encoding the first of them does.  A
    transaction is dropped when its recovered sender
    is the coinbase and when its recipient is the coinbase; it is kept
    otherwise, also when the sender could not be recovered.  With coinbase
    0xCAFE and maxTx 0, a block of tx1 (from the coinbase), tx2 (to the
    coinbase) and tx3 (neither), in any order, yields the emitted form of
    tx3 alone. *)
Theorem C5_selection :
  forall (block : EthBlock) (maxTx : Z),
    BloxrouteSimulateBlock_txs block maxTx
    = run_mapM Spec_encode
        (Spec_cap maxTx
           (filter (fun tx => Spec_keep (Coinbase block) tx = true) (BlockTransactions block)))
    /\ (maxTx <= 0 ->
        BloxrouteSimulateBlock_txs block maxTx
        = run_mapM Spec_encode
            (filter (fun tx => Spec_keep (Coinbase block) tx = true) (BlockTransactions block)))
    /\ (forall tx, tx_Sender tx = Some (Coinbase block) -> Spec_keep (Coinbase block) tx = false)
    /\ (forall tx, tx_To tx = Some (Coinbase block) -> Spec_keep (Coinbase block) tx = false)
    /\ (forall tx, tx_Sender tx <> Some (Coinbase block) -> tx_To tx <> Some (Coinbase block) ->
                   Spec_keep (Coinbase block) tx = true)
    /\ (forall tx, tx_Sender tx = None -> tx_To tx <> Some (Coinbase block) ->
                   Spec_keep (Coinbase block) tx = true)
    /\ (forall (tx1 tx2 tx3 : Tx) (order : list Tx),
          tx_Sender tx1 = Some 51966 -> tx_To tx2 = Some 51966 ->
          tx_Sender tx3 <> Some 51966 -> tx_To tx3 <> Some 51966 ->
          order ≡ₚ [tx1; tx2; tx3] ->
          BloxrouteSimulateBlock_txs (mkEthBlock 51966 order) 0
          = bind (Spec_encode tx3) (fun emitted => Done [emitted])).
Proof.
  intros [coinbase transactions] maxTx. cbn [Coinbase BlockTransactions].
  assert (Hboth : forall cb tx, tx_Sender tx <> Some cb -> tx_To tx <> Some cb ->
                                Spec_keep cb tx = true).
  { intros cb tx Hs Ht. unfold Spec_keep.
    now rewrite !bool_decide_eq_false_2 by assumption. }
  split; [apply BloxrouteSimulateBlock_txs_spec |].
  split; [| split; [| split; [| split; [| split]]]].
  - intros Hcap. rewrite BloxrouteSimulateBlock_txs_spec. unfold Spec_cap.
    destruct (0 <? maxTx) eqn:E; [apply Z.ltb_lt in E; lia | reflexivity].
  - intros tx Hs. unfold Spec_keep. now rewrite bool_decide_eq_true_2.
  - intros tx Ht. unfold Spec_keep. rewrite (bool_decide_eq_true_2 _ Ht).
    now rewrite andb_false_r.
  - intros tx. apply Hboth.
  - intros tx Hs Ht. apply Hboth; [congruence | assumption].
  - intros tx1 tx2 tx3 order H1 H2 H3s H3t Hperm.
    rewrite BloxrouteSimulateBlock_txs_spec. unfold Spec_cap. cbn [Z.ltb Z.compare].
    assert (Hkept : filter (fun tx => Spec_keep 51966 tx = true) order = [tx3]).
    { apply Permutation_singleton_r. rewrite Hperm.
      rewrite filter_cons_False.
      2: { unfold Spec_keep. rewrite (bool_decide_eq_true_2 _ H1). discriminate. }
      rewrite filter_cons_False.
      2: { unfold Spec_keep. rewrite (bool_decide_eq_true_2 _ H2), andb_false_r.
           discriminate. }
      rewrite filter_cons_True by now apply Hboth.
      reflexivity. }
    rewrite Hkept. cbn [run_mapM]. destruct (Spec_encode tx3); reflexivity.
Qed.

Lemma C5_selection_witness :
  BloxrouteSimulateBlock_txs
    (mkEthBlock 51966
       [mkTx None (Some 51966) [248; 1; 2];
        mkTx (Some 7) (Some 9) [184; 3; 10; 11; 12];
        mkTx (Some 51966) (Some 9) [248; 3; 4]]) 0
  = Done ["0x0a0b0c"].
Proof.
  destruct (C5_selection (mkEthBlock 51966 []) 0) as (_ & _ & _ & _ & _ & _ & Hscenario).
  rewrite (Hscenario (mkTx (Some 51966) (Some 9) [248; 3; 4])
             (mkTx None (Some 51966) [248; 1; 2])
             (mkTx (Some 7) (Some 9) [184; 3; 10; 11; 12])
             [mkTx None (Some 51966) [248; 1; 2];
              mkTx (Some 7) (Some 9) [184; 3; 10; 11; 12];
              mkTx (Some 51966) (Some 9) [248; 3; 4]]).
  - reflexivity.
  - reflexivity.
  - reflexivity.
  - discriminate.
  - discriminate.
  - apply Permutation_sym, (Permutation_app_comm [_] [_; _]).
Defined.

(** C6: the emitted form of a selected transaction is 0x followed by its
    lowercase hex after the prefix rule: an encoding that starts with the
    byte b9 loses its first three bytes (six hex characters), one that
    starts with b8 its first two bytes (four hex characters), any other is
    passed through whole; and when maxTx is positive the sequence stops at
    the first maxTx selected transactions. *)
Theorem C6_normalization_and_cap :
  (forall (tx : Tx) (l1 l2 : Z) (payload : list Z),
      tx_EncodeRLP tx = 185 :: l1 :: l2 :: payload ->
      Spec_encode tx = Done ("0x" +:+ fmt.x_bytes payload))
  /\ (forall (tx : Tx) (l1 : Z) (payload : list Z),
         tx_EncodeRLP tx = 184 :: l1 :: payload ->
         Spec_encode tx = Done ("0x" +:+ fmt.x_bytes payload))
  /\ (forall rlp : string,
         (6 <= String.length rlp)%nat -> strings.HasPrefix rlp "b9" = true ->
         stripFraming rlp = Done (string_drop 6 rlp))
  /\ (forall rlp : string,
         (4 <= String.length rlp)%nat -> strings.HasPrefix rlp "b8" = true ->
         stripFraming rlp = Done (string_drop 4 rlp))
  /\ (forall rlp : string,
         (2 <= String.length rlp)%nat ->
         strings.HasPrefix rlp "b9" = false -> strings.HasPrefix rlp "b8" = false ->
         stripFraming rlp = Done rlp)
  /\ (forall (tx : Tx) (rlp : string),
         stripFraming (TxToRlp tx) = Done rlp -> Spec_encode tx = Done ("0x" +:+ rlp))
  /\ (forall (block : EthBlock) (maxTx : Z),
         0 < maxTx ->
         BloxrouteSimulateBlock_txs block maxTx
         = run_mapM Spec_encode
             (take (Z.to_nat maxTx)
                (filter (fun tx => Spec_keep (Coinbase block) tx = true)
                   (BlockTransactions block)))
         /\ forall out,
             BloxrouteSimulateBlock_txs block maxTx = Done out ->
             Z.of_nat (length out) <= maxTx).
Proof.
  split; [| split; [| split; [| split; [| split; [| split]]]]].
  - intros tx l1 l2 payload Hrlp. unfold Spec_encode, TxToRlp. rewrite Hrlp.
    reflexivity.
  - intros tx l1 payload Hrlp. unfold Spec_encode, TxToRlp. rewrite Hrlp.
    reflexivity.
  - intros rlp Hlen Hb9. rewrite stripFraming_cases, Hb9 by lia.
    now apply slice_from_drop.
  - intros rlp Hlen Hb8. rewrite stripFraming_cases by lia.
    destruct (strings.HasPrefix rlp "b9") eqn:Hb9.
    + exfalso. destruct rlp as [| c1 [| c2 r]]; cbn in Hlen; try lia.
      change "b9" with (String "b" (String "9" EmptyString)) in Hb9.
      change "b8" with (String "b" (String "8" EmptyString)) in Hb8.
      rewrite HasPrefix_2 in Hb9, Hb8.
      apply andb_true_iff in Hb9 as [_ H9], Hb8 as [_ H8].
      apply Ascii.eqb_eq in H9, H8. congruence.
    + rewrite Hb8. now apply slice_from_drop.
  - intros rlp Hlen Hb9 Hb8. now rewrite stripFraming_cases, Hb9, Hb8.
  - intros tx rlp Hstrip. unfold Spec_encode. now rewrite Hstrip.
  - intros [coinbase transactions] maxTx Hpos. cbn [Coinbase BlockTransactions].
    rewrite BloxrouteSimulateBlock_txs_spec. unfold Spec_cap.
    rewrite (proj2 (Z.ltb_lt 0 maxTx) Hpos).
    split; [reflexivity |].
    intros out Hout. apply run_mapM_length in Hout. rewrite Hout, length_take. lia.
Qed.

Lemma C6_normalization_witness :
  Spec_encode (mkTx None None [185; 1; 0; 2; 171]) = Done "0x02ab"
  /\ Spec_encode (mkTx None None [184; 56; 2; 171]) = Done "0x02ab"
  /\ stripFraming "b90100ff" = Done "ff"
  /\ stripFraming "b838ff" = Done "ff"
  /\ stripFraming "f86b01" = Done "f86b01"
  /\ BloxrouteSimulateBlock_txs
       (mkEthBlock 51966
          [mkTx None None [248; 1]; mkTx None None [248; 2]; mkTx None None [248; 3]]) 2
     = Done ["0xf801"; "0xf802"].
Proof.
  destruct C6_normalization_and_cap as (Hb9 & Hb8 & Hs9 & Hs8 & Hother & _ & Hcap).
  split; [exact (Hb9 (mkTx None None [185; 1; 0; 2; 171]) 1 0 [2; 171] eq_refl) |].
  split; [exact (Hb8 (mkTx None None [184; 56; 2; 171]) 56 [2; 171] eq_refl) |].
  split; [apply (Hs9 "b90100ff"); [cbn; lia | reflexivity] |].
  split; [apply (Hs8 "b838ff"); [cbn; lia | reflexivity] |].
  split; [apply (Hother "f86b01"); [cbn; lia | reflexivity | reflexivity] |].
  destruct (Hcap (mkEthBlock 51966
                    [mkTx None None [248; 1]; mkTx None None [248; 2];
                     mkTx None None [248; 3]]) 2 ltac:(lia)) as [Heq _].
  rewrite Heq. reflexivity.
Defined.

(** C4: a non-negative int survives IntToHex followed by ParseInt, a
    non-negative big integer survives BigToHex followed by ParseBigInt, both
    without error, and zero is written as 0x0 by both encoders. *)
Theorem C4_codec_round_trip :
  (forall n : Z, 0 <= n < 2 ^ 63 -> ParseInt (IntToHex n) = (n, None))
  /\ (forall n : Z, 0 <= n -> ParseBigInt (BigToHex n) = (n, None))
  /\ IntToHex 0 = "0x0"
  /\ BigToHex 0 = "0x0".
Proof.
  split; [exact ParseInt_IntToHex |].
  split; [exact ParseBigInt_BigToHex |].
  split; reflexivity.
Qed.

Lemma C4_codec_round_trip_witness :
  ParseInt (IntToHex 9223372036854775807) = (9223372036854775807, None)
  /\ ParseBigInt (BigToHex 340282366920938463463374607431768211456)
     = (340282366920938463463374607431768211456, None).
Proof.
  destruct C4_codec_round_trip as (Hint & Hbig & _).
  split.
  - apply (Hint 9223372036854775807). split; [lia | reflexivity].
  - apply (Hbig 340282366920938463463374607431768211456). lia.
Defined.
